(** * autosuspend: activity and wakeup checks

    A shallow embedding of the checks in
    [src/autosuspend/checks/kodi.py], [src/autosuspend/checks/systemd.py]
    and [src/autosuspend/checks/wakeup.py].

    Conventions of the embedding.
    - A Python call that may raise is a value of [outcome A]: either
      [Return a] or [Raise e] with [e] the exception.  [try]/[except] is
      [try_except], which runs the first clause whose class test accepts
      the exception and lets every other exception through.
    - What a check reads from outside (an HTTP reply, a file, the output of
      a process, the bus, the clock) is an argument of the check.
    - An instant is a [datetime]: microseconds on the time line of its
      [tzinfo], which is absent for a naive value.  Arithmetic on instants
      is the exact integer arithmetic of Python, with its range check.
    - Python's [float] and the conversions from a float to microseconds
      belong to the interpreter, not to this repository.  They enter as the
      operations of the class [PyNumerics]; theorems hold for every
      instance, and [ExactNumerics] is an executable instance that reads
      decimal literals as exact rationals and never rounds to a double; the
      examples evaluate it on whole numbers only.
    - A compiled regular expression is a [Re.Pattern], given by what it
      matches; the expressions written out in the examples are compiled
      from a small regular core of the syntax. *)

From Stdlib Require Import ZArith String Ascii List Bool Lia DecimalString.
From stdpp Require Import base option list strings gmap fin_maps.

Local Open Scope string_scope.
Local Open Scope Z_scope.

(** ** Exceptions *)

Module Exn.

(** The exceptions the modelled code raises or lets escape.  A
    [CalledProcessError] records whether the shell reported that the
    command does not exist. *)
Inductive exn : Type :=
| TemporaryCheckError
| SevereCheckError
| ConfigurationError
| KeyError
| IndexError
| TypeError
| AttributeError
| ValueError
| UnicodeDecodeError
| JSONDecodeError
| OverflowError
| OSError
| FileNotFoundError
| PermissionError
| IsADirectoryError
| CalledProcessError (command_not_found : bool)
| LogindDBusException.

(** Class tests, one per class named in an [except] clause; each accepts
    the class and its subclasses. *)
Definition is_KeyError (e : exn) : bool :=
  match e with KeyError => true | _ => false end.

Definition is_TypeError (e : exn) : bool :=
  match e with TypeError => true | _ => false end.

Definition is_JSONDecodeError (e : exn) : bool :=
  match e with JSONDecodeError => true | _ => false end.

Definition is_ValueError (e : exn) : bool :=
  match e with
  | ValueError | UnicodeDecodeError | JSONDecodeError => true
  | _ => false
  end.

Definition is_FileNotFoundError (e : exn) : bool :=
  match e with FileNotFoundError => true | _ => false end.

(** [IOError] is an alias of [OSError]. *)
Definition is_IOError (e : exn) : bool :=
  match e with
  | OSError | FileNotFoundError | PermissionError | IsADirectoryError => true
  | _ => false
  end.

Definition is_CalledProcessError (e : exn) : bool :=
  match e with CalledProcessError _ => true | _ => false end.

Definition is_LogindDBusException (e : exn) : bool :=
  match e with LogindDBusException => true | _ => false end.

End Exn.
Export Exn.

(** ** Calls that may raise *)

Inductive outcome (A : Type) : Type :=
| Return (a : A)
| Raise (e : exn).
Arguments Return {A} a.
Arguments Raise {A} e.

#[global] Instance outcome_ret : MRet outcome := @Return.
#[global] Instance outcome_bind : MBind outcome :=
  fun A B f m => match m with Return a => f a | Raise e => Raise e end.

(** One [except] clause: the class test and the handler. *)
Definition clause (A : Type) : Type := ((exn -> bool) * (exn -> outcome A))%type.

Fixpoint dispatch {A : Type} (e : exn) (cs : list (clause A)) : outcome A :=
  match cs with
  | [] => Raise e
  | (accepts, handler) :: cs' => if accepts e then handler e else dispatch e cs'
  end.

Definition try_except {A : Type} (body : outcome A) (cs : list (clause A)) : outcome A :=
  match body with
  | Return a => Return a
  | Raise e => dispatch e cs
  end.

(** An [except (C1, C2, ...)] clause accepts any of the listed classes. *)
Definition any_of (tests : list (exn -> bool)) (e : exn) : bool :=
  existsb (fun t => t e) tests.

(** [raise X from error] *)
Definition raise_from {A : Type} (x : exn) (_ : exn) : outcome A := Raise x.

(** ** Strings *)

(** A text, [str] or [bytes], is a string of characters with codes below
    256; the two types differ in what counts as a line boundary and as
    whitespace. *)
Module Str.

Definition code (c : ascii) : N := N_of_ascii c.

(** Line boundaries of [str.splitlines]: LF, VT, FF, CR, FS, GS, RS, NEL
    (CR LF counts once). *)
Definition str_linebreak (c : ascii) : bool :=
  let n := code c in
  ((10 <=? n) && (n <=? 13) || (28 <=? n) && (n <=? 30) || (n =? 133))%N.

(** Line boundaries of [bytes.splitlines]: LF and CR. *)
Definition bytes_linebreak (c : ascii) : bool :=
  let n := code c in ((n =? 10) || (n =? 13))%N.

(** Whitespace removed by [str.strip()]. *)
Definition str_space (c : ascii) : bool :=
  let n := code c in
  ((9 <=? n) && (n <=? 13) || (28 <=? n) && (n <=? 32) || (n =? 133) || (n =? 160))%N.

(** Whitespace removed by [bytes.strip()]. *)
Definition bytes_space (c : ascii) : bool :=
  let n := code c in ((9 <=? n) && (n <=? 13) || (n =? 32))%N.

(** Whitespace that [int] and [float] skip around a number in a [str]:
    the whitespace of ASCII, and the whitespace beyond ASCII. *)
Definition number_space (c : ascii) : bool :=
  let n := code c in
  ((9 <=? n) && (n <=? 13) || (n =? 32) || (n =? 133) || (n =? 160))%N.

Definition is_cr (c : ascii) : bool := (code c =? 13)%N.
Definition is_lf (c : ascii) : bool := (code c =? 10)%N.

(** [splitlines]: [cur] is the line being read, reversed, and [after_cr]
    tells that the previous character was a CR, whose LF belongs to the
    same boundary.  A boundary closes the line; text after the last
    boundary is a line only when it is not empty, so the empty text has no
    line at all. *)
Fixpoint splitlines_from (brk : ascii -> bool) (after_cr : bool)
    (cur : list ascii) (s : string) : list string :=
  match s with
  | EmptyString =>
      match cur with
      | [] => []
      | _ => [string_of_list_ascii (rev cur)]
      end
  | String c rest =>
      if after_cr && is_lf c then splitlines_from brk false cur rest
      else if brk c then
        string_of_list_ascii (rev cur) :: splitlines_from brk (is_cr c) [] rest
      else splitlines_from brk false (c :: cur) rest
  end.

Definition str_splitlines (s : string) : list string :=
  splitlines_from str_linebreak false [] s.

Definition bytes_splitlines (s : string) : list string :=
  splitlines_from bytes_linebreak false [] s.

Fixpoint lstrip (sp : ascii -> bool) (s : string) : string :=
  match s with
  | String c rest => if sp c then lstrip sp rest else s
  | EmptyString => EmptyString
  end.

Definition strip_with (sp : ascii -> bool) (s : string) : string :=
  string_of_list_ascii
    (rev (list_ascii_of_string
            (lstrip sp (string_of_list_ascii
                          (rev (list_ascii_of_string (lstrip sp s))))))).

Definition str_strip : string -> string := strip_with str_space.
Definition number_strip : string -> string := strip_with number_space.
Definition bytes_strip : string -> string := strip_with bytes_space.

(** Truth value of a string: non-empty. *)
Definition nonempty (s : string) : bool :=
  match s with EmptyString => false | _ => true end.

Fixpoint is_prefix (p s : string) : bool :=
  match p, s with
  | EmptyString, _ => true
  | String a p', String b s' => if Ascii.eqb a b then is_prefix p' s' else false
  | String _ _, EmptyString => false
  end.

(** [s.endswith(suffix)] *)
Definition endswith (s suffix : string) : bool :=
  is_prefix (string_of_list_ascii (rev (list_ascii_of_string suffix)))
            (string_of_list_ascii (rev (list_ascii_of_string s))).

(** [s.split(sep)] for a one-character separator. *)
Fixpoint split_from (sep : ascii) (cur : list ascii) (s : string) : list string :=
  match s with
  | EmptyString => [string_of_list_ascii (rev cur)]
  | String c rest =>
      if Ascii.eqb c sep
      then string_of_list_ascii (rev cur) :: split_from sep [] rest
      else split_from sep (c :: cur) rest
  end.

Definition split (sep : ascii) (s : string) : list string := split_from sep [] s.

(** [x in l] for a list of strings. *)
Definition str_in (x : string) (l : list string) : bool :=
  existsb (String.eqb x) l.

End Str.

(** ** Instants and durations *)

(** [datetime.timezone]: a fixed offset from UTC, in microseconds. *)
Record tzinfo : Type := { utcoffset : Z }.

(** [timezone.utc] *)
Definition utc : tzinfo := {| utcoffset := 0 |}.

(** [datetime.datetime]: [wall] counts the microseconds from
    1970-01-01T00:00:00 to the date and time fields of the value; the
    value is aware when [tz] is present and naive otherwise. *)
Record datetime : Type := { wall : Z; tz : option tzinfo }.

(** [datetime.timedelta], in microseconds. *)
Definition timedelta : Type := Z.

(** [datetime.min] is 0001-01-01T00:00:00 and [datetime.max] is
    9999-12-31T23:59:59.999999. *)
Definition datetime_min_us : Z := -62135596800000000.
Definition datetime_max_us : Z := 253402300799999999.

Definition datetime_in_range (us : Z) : bool :=
  (datetime_min_us <=? us) && (us <=? datetime_max_us).

(** [timedelta.min] and [timedelta.max]: 999999999 days either way. *)
Definition timedelta_min_us : Z := -999999999 * 86400000000.
Definition timedelta_max_us : Z := 1000000000 * 86400000000 - 1.

Definition timedelta_in_range (us : Z) : bool :=
  (timedelta_min_us <=? us) && (us <=? timedelta_max_us).

Definition aware (t : datetime) : Prop := is_Some (tz t).

(** An aware value in UTC at [us] microseconds after the epoch. *)
Definition utc_instant (us : Z) : datetime := {| wall := us; tz := Some utc |}.

(** [t + d]: the fields move by [d], the time zone stays; a result outside
    the range of [datetime] is an [OverflowError]. *)
Definition datetime_add (t : datetime) (d : timedelta) : outcome datetime :=
  if datetime_in_range (wall t + d)
  then Return {| wall := wall t + d; tz := tz t |}
  else Raise OverflowError.

(** The point on the UTC time line of an aware value. *)
Definition utc_micros (t : datetime) (z : tzinfo) : Z := wall t - utcoffset z.

(** [a < b]: two aware values compare as instants, two naive values by
    their fields, and a naive value does not compare with an aware one. *)
Definition datetime_lt (a b : datetime) : outcome bool :=
  match tz a, tz b with
  | Some za, Some zb => Return (utc_micros a za <? utc_micros b zb)
  | None, None => Return (wall a <? wall b)
  | _, _ => Raise TypeError
  end.

(** The keyword arguments of [timedelta] and their length in microseconds. *)
Definition timedelta_keywords : list (string * Z) :=
  [ ("days", 86400000000); ("seconds", 1000000); ("microseconds", 1);
    ("milliseconds", 1000); ("minutes", 60000000); ("hours", 3600000000);
    ("weeks", 604800000000) ].

Fixpoint assoc {V : Type} (k : string) (l : list (string * V)) : option V :=
  match l with
  | [] => None
  | (k', v) :: l' => if String.eqb k k' then Some v else assoc k l'
  end.

(** ** The interpreter's numerics *)

(** What the checks use of Python's [float]:
    - [float_of_string s] is [float(s)] for a [str] or [bytes] value, [None]
      when it raises [ValueError];
    - [int_truediv a b] is [a / b] on integers;
    - [timestamp_micros x] is the microsecond count that
      [datetime.fromtimestamp(x, timezone.utc)] rounds [x] seconds to, or
      the exception it raises (not a number, infinite, out of range);
    - [timedelta_micros k x] is the length in microseconds of
      [timedelta] called with [x] for a keyword of [k] microseconds, or
      the exception it raises. *)
Class PyNumerics : Type := {
  pyfloat : Type;
  float_of_string : string -> option pyfloat;
  int_truediv : Z -> Z -> pyfloat;
  timestamp_micros : pyfloat -> outcome Z;
  timedelta_micros : Z -> pyfloat -> outcome Z
}.

Section Conversions.
Context {N : PyNumerics}.

(** [float(s)] *)
Definition float (s : string) : outcome pyfloat :=
  match float_of_string s with
  | Some x => Return x
  | None => Raise ValueError
  end.

(** [datetime.fromtimestamp(x, timezone.utc)] *)
Definition fromtimestamp_utc (x : pyfloat) : outcome datetime :=
  us ← timestamp_micros x; Return (utc_instant us).

(** [timedelta] called with the one keyword [unit], set to [x]: a name
    that is no keyword of [timedelta] is a [TypeError]. *)
Definition timedelta_kw (unit : string) (x : pyfloat) : outcome timedelta :=
  match assoc unit timedelta_keywords with
  | Some k => timedelta_micros k x
  | None => Raise TypeError
  end.

(** [min] over the values [convert m] for [m] in a sequence, as the
    built-in runs it on a generator: the first value is the candidate; each
    further value is computed, compared with the candidate and kept when
    smaller.  An empty sequence is a [ValueError]. *)
Fixpoint min_loop {A : Type} (convert : A -> outcome datetime)
    (best : datetime) (rest : list A) : outcome datetime :=
  match rest with
  | [] => Return best
  | m :: rest' =>
      x ← convert m;
      smaller ← datetime_lt x best;
      min_loop convert (if smaller : bool then x else best) rest'
  end.

Definition min_of {A : Type} (convert : A -> outcome datetime) (l : list A)
  : outcome datetime :=
  match l with
  | [] => Raise ValueError
  | m :: rest => first ← convert m; min_loop convert first rest
  end.

End Conversions.

(** [min(l)] on a list of instants. *)
Definition py_min (l : list datetime) : outcome datetime :=
  match l with
  | [] => Raise ValueError
  | first :: rest => min_loop Return first rest
  end.

(** ** An executable instance of the numerics *)

Module Exact.

(** A float read exactly: a ratio, an infinity, or not a number. *)
Inductive xfloat : Type :=
| Finite (num : Z) (den : positive)
| Infinite (negative : bool)
| NaN.

(** [n / d] rounded to the nearest integer, ties to even. *)
Definition round_half_even (n : Z) (d : positive) : Z :=
  let q := n / Z.pos d in
  let r := n mod Z.pos d in
  if 2 * r <? Z.pos d then q
  else if Z.pos d <? 2 * r then q + 1
  else if Z.even q then q else q + 1.

Definition digit_of (c : ascii) : option Z :=
  let n := Z.of_N (N_of_ascii c) in
  if (48 <=? n) && (n <=? 57) then Some (n - 48) else None.

(** The longest run of digits at the head of [s], where one underscore
    may stand between two digits: its value on top of [acc], the number of
    digits read on top of [count], and the rest. *)
Fixpoint digits (acc : Z) (count : nat) (s : string) : Z * nat * string :=
  match s with
  | String c rest =>
      match digit_of c with
      | Some d => digits (10 * acc + d) (S count) rest
      | None =>
          match count, rest with
          | S _, String c' rest' =>
              if Ascii.eqb c "_" then
                match digit_of c' with
                | Some d => digits (10 * acc + d) (S count) rest'
                | None => (acc, count, s)
                end
              else (acc, count, s)
          | _, _ => (acc, count, s)
          end
      end
  | EmptyString => (acc, count, s)
  end.

Definition lower (c : ascii) : ascii :=
  let n := N_of_ascii c in
  if ((65 <=? n) && (n <=? 90))%N then ascii_of_N (n + 32) else c.

Fixpoint lowercase (s : string) : string :=
  match s with
  | String c rest => String (lower c) (lowercase rest)
  | EmptyString => EmptyString
  end.

(** An optional sign: [true] for minus. *)
Definition sign (s : string) : bool * string :=
  match s with
  | String "-" rest => (true, rest)
  | String "+" rest => (false, rest)
  | _ => (false, s)
  end.

(** The exponent part, after the mantissa: absent, or [e] with an optional
    sign and at least one digit, up to the end of the text. *)
Definition exponent (s : string) : option Z :=
  match s with
  | EmptyString => Some 0
  | String c rest =>
      if Ascii.eqb (lower c) "e" then
        let '(neg, rest1) := sign rest in
        match digits 0 0 rest1 with
        | (_, O, _) => None
        | (e, S _, EmptyString) => Some (if neg : bool then - e else e)
        | _ => None
        end
      else None
  end.

(** A decimal literal without sign: digits, an optional point with
    digits (one of the two runs may be empty, not both) and an optional
    exponent. *)
Definition decimal (s : string) : option (Z * Z) :=
  let '(ip, ni, rest) := digits 0 0 s in
  let '(m, nf, rest1) :=
    match rest with
    | String "." rest0 =>
        let '(m, nf, rest1) := digits ip 0 rest0 in (m, nf, rest1)
    | _ => (ip, O, rest)
    end in
  match (ni + nf)%nat with
  | O => None
  | S _ =>
      match exponent rest1 with
      | Some e => Some (m, e - Z.of_nat nf)
      | None => None
      end
  end.

(** [float(s)] on decimal literals, [inf], [infinity] and [nan], with
    surrounding whitespace and a sign allowed.  The value is the number
    written, not the nearest double. *)
Definition parse (s : string) : option xfloat :=
  let '(neg, body) := sign (Str.number_strip s) in
  match decimal body with
  | Some (m, e) =>
      let m' := if neg : bool then - m else m in
      Some (if 0 <=? e then Finite (m' * 10 ^ e) 1
            else Finite m' (Z.to_pos (10 ^ (- e))))
  | None =>
      let w := lowercase body in
      if String.eqb w "inf" || String.eqb w "infinity" then Some (Infinite neg)
      else if String.eqb w "nan" then Some NaN
      else None
  end.

Definition truediv (a b : Z) : xfloat :=
  if b =? 0 then NaN
  else if 0 <? b then Finite a (Z.to_pos b)
  else Finite (- a) (Z.to_pos (- b)).

(** [x] units of [k] microseconds, rounded to a whole microsecond. *)
Definition scale (k : Z) (x : xfloat) : outcome Z :=
  match x with
  | Finite n d => Return (round_half_even (n * k) d)
  | Infinite _ => Raise OverflowError
  | NaN => Raise ValueError
  end.

Definition timestamp (x : xfloat) : outcome Z :=
  us ← scale 1000000 x;
  if datetime_in_range us then Return us else Raise ValueError.

Definition duration (k : Z) (x : xfloat) : outcome Z :=
  us ← scale k x;
  if timedelta_in_range us then Return us else Raise OverflowError.

End Exact.

(** The instance rounds nothing to a double: a literal is the number
    written and a quotient of integers is exact.  The interpreter agrees
    with it where the double of the value is the value, as for the whole
    numbers of seconds and of units that the examples read; elsewhere the
    two may differ by the rounding of the double, which is why the general
    statements are made for every instance of [PyNumerics] and not for this
    one.  It also reads a [bytes] value as it reads a [str] value: the
    codes 133 and 160 count as whitespace around a number in both. *)
Definition ExactNumerics : PyNumerics := {|
  pyfloat := Exact.xfloat;
  float_of_string := Exact.parse;
  int_truediv := Exact.truediv;
  timestamp_micros := Exact.timestamp;
  timedelta_micros := Exact.duration
|}.

(** ** JSON values and the operations Python applies to them *)

#[warnings="-register-all"] Inductive json : Type :=
| JNull
| JBool (b : bool)
| JInt (n : Z)
| JFloat (num : Z) (den : positive)
| JStr (s : string)
| JArr (items : list json)
| JObj (members : list (string * json)).

(** [v[key]] for a string [key]: a dict without the key is a [KeyError];
    a list or a string takes no string index and the other values take no
    index at all, both a [TypeError]. *)
Definition subscript (v : json) (key : string) : outcome json :=
  match v with
  | JObj members =>
      match assoc key members with
      | Some x => Return x
      | None => Raise KeyError
      end
  | _ => Raise TypeError
  end.

(** [v.get(key)]: [None] for a dict without the key; only a dict has the
    method. *)
Definition get (v : json) (key : string) : outcome json :=
  match v with
  | JObj members => Return (default JNull (assoc key members))
  | _ => Raise AttributeError
  end.

(** The truth value of a JSON value in a condition. *)
Definition truthy (v : json) : bool :=
  match v with
  | JNull => false
  | JBool b => b
  | JInt n => negb (n =? 0)
  | JFloat n _ => negb (n =? 0)
  | JStr s => Str.nonempty s
  | JArr items => match items with [] => false | _ => true end
  | JObj members => match members with [] => false | _ => true end
  end.

(** The body of an HTTP reply, as [Response.json()] sees it. *)
Inductive response : Type :=
| NotJson
| Json (v : json).

(** [response.json()] *)
Definition response_json (r : response) : outcome json :=
  match r with
  | Json v => Return v
  | NotJson => Raise JSONDecodeError
  end.

(** ** kodi.py *)

(** In both classes the argument [fetched] is the outcome of
    [self.request()], which the network mixin provides: the reply, or the
    [TemporaryCheckError] it raises when the request fails. *)

Module Kodi.

Record t : Type := { suspend_while_paused : bool }.

Definition _safe_request_result (self : t) (fetched : outcome response)
  : outcome json :=
  try_except
    (r ← fetched; v ← response_json r; subscript v "result")
    [ (any_of [is_KeyError; is_TypeError; is_JSONDecodeError],
       raise_from TemporaryCheckError) ].

Definition check (self : t) (fetched : outcome response) : outcome (option string) :=
  reply ← _safe_request_result self fetched;
  if suspend_while_paused self then
    playing ← get reply "Player.Playing";
    Return (if truthy playing then Some "Kodi actively playing media" else None)
  else
    Return (if truthy reply then Some "Kodi currently playing" else None).

End Kodi.

Module KodiIdleTime.

Record t : Type := { idle_time : Z }.

(** [str(n)] for an integer. *)
Definition str_of_int (n : Z) : string :=
  NilZero.string_of_int (Z.to_int n).

(** ["System.IdleTime({})".format(idle_time)] *)
Definition idle_key (self : t) : string :=
  "System.IdleTime(" ++ str_of_int (idle_time self) ++ ")".

Definition check (self : t) (fetched : outcome response) : outcome (option string) :=
  try_except
    (r ← fetched;
     reply ← response_json r;
     result ← subscript reply "result";
     idle ← subscript result (idle_key self);
     if negb (truthy idle) then Return (Some "Someone interacts with Kodi")
     else Return None)
    [ (any_of [is_KeyError; is_TypeError; is_JSONDecodeError],
       raise_from TemporaryCheckError) ].

End KodiIdleTime.

(** ** Regular expressions *)

(** The module [re], as far as the checks use it. *)
Module Re.

(** A compiled expression, [re.Pattern], by what matching decides:
    [attempt p s i] tells whether the expression matches in the text [s] at
    the index [i].  Whatever [re.compile] accepts is such a value; how an
    expression is written plays no part. *)
Record Pattern : Type := { attempt : string -> nat -> bool }.

(** [bool(p.match(s))]: the expression matches at the start of the text. *)
Definition Pattern_match (p : Pattern) (s : string) : bool := attempt p s O.

(** Expressions of the regular core of the syntax, for the examples:
    [Dot] is the expression [.], which takes any character but a line
    feed. *)
Inductive fragment : Type :=
| Never
| Eps
| Chr (c : ascii)
| Dot
| Cat (p q : fragment)
| Alt (p q : fragment)
| Star (p : fragment).

(** The fragment takes the empty text. *)
Fixpoint nullable (p : fragment) : bool :=
  match p with
  | Never | Chr _ | Dot => false
  | Eps | Star _ => true
  | Cat p1 p2 => nullable p1 && nullable p2
  | Alt p1 p2 => nullable p1 || nullable p2
  end.

(** What is left of the fragment once it has taken the character [c]. *)
Fixpoint after (c : ascii) (p : fragment) : fragment :=
  match p with
  | Never | Eps => Never
  | Chr d => if Ascii.eqb c d then Eps else Never
  | Dot => if Str.is_lf c then Never else Eps
  | Cat p1 p2 =>
      if nullable p1 then Alt (Cat (after c p1) p2) (after c p2)
      else Cat (after c p1) p2
  | Alt p1 p2 => Alt (after c p1) (after c p2)
  | Star p1 => Cat (after c p1) (Star p1)
  end.

(** Some text at the start of [s] is taken by [p]. *)
Fixpoint matches (p : fragment) (s : string) : bool :=
  nullable p ||
  match s with
  | String c rest => matches (after c p) rest
  | EmptyString => false
  end.

(** The whole of [s] is taken by [p]. *)
Fixpoint fullmatch (p : fragment) (s : string) : bool :=
  match s with
  | String c rest => fullmatch (after c p) rest
  | EmptyString => nullable p
  end.

(** The fragment that takes exactly the text [s]. *)
Fixpoint literal (s : string) : fragment :=
  match s with
  | String c rest => Cat (Chr c) (literal rest)
  | EmptyString => Eps
  end.

(** The texts a fragment takes. *)
Inductive takes : fragment -> string -> Prop :=
| takes_eps : takes Eps EmptyString
| takes_chr c : takes (Chr c) (String c EmptyString)
| takes_dot c : Str.is_lf c = false -> takes Dot (String c EmptyString)
| takes_cat p q u v : takes p u -> takes q v -> takes (Cat p q) (u ++ v)%string
| takes_alt_l p q u : takes p u -> takes (Alt p q) u
| takes_alt_r p q u : takes q u -> takes (Alt p q) u
| takes_star_nil p : takes (Star p) EmptyString
| takes_star_app p u v :
    takes p u -> takes (Star p) v -> takes (Star p) (u ++ v)%string.

(** The text from the index [i] on, when the text is that long. *)
Fixpoint from_index (i : nat) (s : string) : option string :=
  match i, s with
  | O, _ => Some s
  | S i', String _ rest => from_index i' rest
  | S _, EmptyString => None
  end.

(** The compiled expression of a fragment: it matches at an index when it
    takes some text at the start of the text from there. *)
Definition compile (p : fragment) : Pattern :=
  {| attempt := fun s i =>
       match from_index i s with
       | Some rest => matches p rest
       | None => false
       end |}.

End Re.

(** ** systemd.py *)

(** One entry of [ListUnits]: the name is field 0 and the object path is
    field 6. *)
Record unit_entry : Type := { unit_name : string; object_path : string }.

(** The two properties read from [org.freedesktop.systemd1.Timer]. *)
Record timer_props : Type := {
  NextElapseUSecRealtime : Z;
  NextElapseUSecMonotonic : Z
}.

(** What the system bus answers: the units, and the timer properties of
    the object at a path. *)
Record bus : Type := {
  ListUnits : list unit_entry;
  GetAll : string -> timer_props
}.

(** The clock: [clock k] is the UTC time in microseconds that the read
    number [k] of [datetime.now] returns. *)
Definition clock : Type := nat -> Z.

Section Timers.
Context {N : PyNumerics}.

(** The body of the loop up to [next_time]: the instant, if any, and the
    number of clock reads so far. *)
Definition next_time (now : clock) (reads : nat) (props : timer_props)
  : outcome (option datetime * nat) :=
  if negb (NextElapseUSecRealtime props =? 0) then
    t ← fromtimestamp_utc (int_truediv (NextElapseUSecRealtime props) 1000000);
    Return (Some t, reads)
  else if negb (NextElapseUSecMonotonic props =? 0) then
    let current := utc_instant (now reads) in
    d ← timedelta_kw "seconds" (int_truediv (NextElapseUSecMonotonic props) 1000000);
    t ← datetime_add current d;
    Return (Some t, S reads)
  else Return (None, reads).

(** One turn of the loop over the timers. *)
Definition record_timer (b : bus) (now : clock)
    (state : gmap string datetime * nat) (timer : unit_entry)
  : outcome (gmap string datetime * nat) :=
  let '(result, reads) := state in
  '(next, reads') ← next_time now reads (GetAll b (object_path timer));
  match next with
  | Some t => Return (<[unit_name timer := t]> result, reads')
  | None => Return (result, reads')
  end.

Fixpoint record_timers (b : bus) (now : clock)
    (state : gmap string datetime * nat) (timers : list unit_entry)
  : outcome (gmap string datetime * nat) :=
  match timers with
  | [] => Return state
  | timer :: rest =>
      state' ← record_timer b now state timer;
      record_timers b now state' rest
  end.

Definition timers_of (b : bus) : list unit_entry :=
  List.filter (fun u => Str.endswith (unit_name u) ".timer") (ListUnits b).

Definition next_timer_executions (b : bus) (now : clock)
  : outcome (gmap string datetime) :=
  '(result, _) ← record_timers b now (∅, O) (timers_of b);
  Return result.

End Timers.

Module SystemdTimer.

Record t : Type := { _match : Re.Pattern }.

Section Check.
Context {N : PyNumerics}.

(** The list comprehension over [executions.items()]. *)
Definition matching_executions (self : t) (executions : gmap string datetime)
  : list datetime :=
  map snd (List.filter (fun item => Re.Pattern_match (_match self) (fst item))
                       (map_to_list executions)).

Definition check (self : t) (b : bus) (now : clock) (timestamp : datetime)
  : outcome (option datetime) :=
  executions ← next_timer_executions b now;
  try_except
    (earliest ← py_min (matching_executions self executions);
     Return (Some earliest))
    [ (is_ValueError, fun _ => Return None) ].

End Check.
End SystemdTimer.

Module LogindSessionsIdle.

(** The properties of a session that the check reads. *)
Record properties : Type := {
  SessionType : string;
  State : string;
  IdleHint : bool
}.

Record t : Type := { _types : list string; _states : list string }.

(** [config.get(key, fallback=...)] *)
Definition config_get (config : gmap string string) (key fallback : string)
  : string :=
  default fallback (config !! key).

Definition create (config : gmap string string) : t :=
  let types := Str.split "," (config_get config "types" "tty,x11,wayland") in
  let types := map Str.str_strip types in
  let states := Str.split "," (config_get config "states" "active,online") in
  let states := map Str.str_strip states in
  {| _types := types; _states := states |}.

(** [listed] is the outcome of [list_logind_sessions()]. *)
Definition _list_logind_sessions (listed : outcome (list (string * properties)))
  : outcome (list (string * properties)) :=
  try_except listed
    [ (is_LogindDBusException, raise_from TemporaryCheckError) ].

(** The [for] loop of [check], from the sessions still to visit. *)
Fixpoint scan (self : t) (sessions : list (string * properties)) : option string :=
  match sessions with
  | [] => None
  | (session_id, props) :: rest =>
      if negb (Str.str_in (SessionType props) (_types self)) then scan self rest
      else if negb (Str.str_in (State props) (_states self)) then scan self rest
      else if negb (IdleHint props)
           then Some ("Login session " ++ session_id ++ " is not idle")%string
           else scan self rest
  end.

Definition check (self : t) (listed : outcome (list (string * properties)))
  : outcome (option string) :=
  sessions ← _list_logind_sessions listed;
  Return (scan self sessions).

End LogindSessionsIdle.

(** ** wakeup.py *)

(** [l[0]] *)
Definition first_item {A : Type} (l : list A) : outcome A :=
  match l with
  | x :: _ => Return x
  | [] => Raise IndexError
  end.

(** [config[key]] *)
Definition config_item (config : gmap string string) (key : string)
  : outcome string :=
  match config !! key with
  | Some v => Return v
  | None => Raise KeyError
  end.

Module File.

Section Check.
Context {N : PyNumerics}.

(** [read] is the outcome of [self._path.read_text()]: the text of the
    file, or the error of opening, reading or decoding it. *)
Definition check (read : outcome string) (timestamp : datetime)
  : outcome (option datetime) :=
  try_except
    (text ← read;
     first_line ← first_item (Str.str_splitlines text);
     seconds ← float (Str.str_strip first_line);
     t ← fromtimestamp_utc seconds;
     Return (Some t))
    [ (is_FileNotFoundError, fun _ => Return None);
      (any_of [is_ValueError; is_IOError], raise_from TemporaryCheckError) ].

End Check.
End File.

Module Command.

(** Modelled from the spec: [raise_severe_if_command_not_found] of
    [util/subprocess.py], which is not among the sources.  The spec has a
    failed command map to [SevereCheckError] when its binary is absent and
    to [TemporaryCheckError] when it ran and failed; the helper raises in
    the first case and returns in the second. *)
Definition raise_severe_if_command_not_found (error : exn) : outcome unit :=
  match error with
  | CalledProcessError true => Raise SevereCheckError
  | _ => Return tt
  end.

Section Check.
Context {N : PyNumerics}.

(** [ran] is the outcome of [subprocess.check_output(self._command,
    shell=True)]: the bytes written to standard output by a command that
    exited with status zero, or the [CalledProcessError] of another
    status. *)
Definition check (ran : outcome string) (timestamp : datetime)
  : outcome (option datetime) :=
  try_except
    (stdout ← ran;
     output ← first_item (Str.bytes_splitlines stdout);
     if Str.nonempty (Str.bytes_strip output) then
       seconds ← float (Str.bytes_strip output);
       t ← fromtimestamp_utc seconds;
       Return (Some t)
     else Return None)
    [ (is_CalledProcessError,
       fun error =>
         _ ← raise_severe_if_command_not_found error;
         raise_from TemporaryCheckError error);
      (is_ValueError, raise_from TemporaryCheckError) ].

End Check.
End Command.

Module Periodic.

Record t : Type := { _delta : timedelta }.

Section Check.
Context {N : PyNumerics}.

Definition create (config : gmap string string) : outcome t :=
  try_except
    (unit ← config_item config "unit";
     value ← config_item config "value";
     x ← float value;
     delta ← timedelta_kw unit x;
     Return {| _delta := delta |})
    [ (any_of [is_ValueError; is_KeyError; is_TypeError],
       fun _ => Raise ConfigurationError) ].

End Check.

Definition check (self : t) (timestamp : datetime) : outcome (option datetime) :=
  t ← datetime_add timestamp (_delta self);
  Return (Some t).

End Periodic.

(** One result of the XPath query: a string, or a node of the document. *)
Inductive xpath_result : Type :=
| XText (s : string)
| XNode.

Section XPathResults.
Context {N : PyNumerics}.

(** [float(result)]: only a string converts. *)
Definition float_of_result (result : xpath_result) : outcome pyfloat :=
  match result with
  | XText s => float s
  | XNode => Raise TypeError
  end.

End XPathResults.

Module XPath.

Section Check.
Context {N : PyNumerics}.

Definition convert_result (result : xpath_result) (timestamp : datetime)
  : outcome datetime :=
  seconds ← float_of_result result;
  fromtimestamp_utc seconds.

(** The body of [check], with the method [self.convert_result] that the
    class of [self] selects.  [evaluated] is the outcome of
    [self.evaluate()], which the XPath mixin provides: the matches, or the
    [TemporaryCheckError] it raises. *)
Definition check_with
    (self_convert_result : xpath_result -> datetime -> outcome datetime)
    (evaluated : outcome (list xpath_result)) (timestamp : datetime)
  : outcome (option datetime) :=
  matches ← evaluated;
  try_except
    (match matches with
     | _ :: _ =>
         earliest ← min_of (fun m => self_convert_result m timestamp) matches;
         Return (Some earliest)
     | [] => Return None
     end)
    [ (is_TypeError, raise_from TemporaryCheckError);
      (is_ValueError, raise_from TemporaryCheckError) ].

Definition check : outcome (list xpath_result) -> datetime -> outcome (option datetime) :=
  check_with convert_result.

End Check.
End XPath.

Module XPathDelta.

Record t : Type := { _unit : string }.

Definition UNITS : list string :=
  [ "days"; "seconds"; "microseconds"; "milliseconds"; "minutes"; "hours";
    "weeks" ].

Definition __init__ (unit : string) : outcome t :=
  if negb (Str.str_in unit UNITS) then Raise ValueError
  else Return {| _unit := unit |}.

(** [collected] is the outcome of [XPath.collect_init_args(config)], which
    the XPath mixin provides; the arguments it collects are passed on to
    the mixin and are not part of this model. *)
Definition create (config : gmap string string) (collected : outcome unit)
  : outcome t :=
  try_except
    (_ ← collected;
     __init__ (LogindSessionsIdle.config_get config "unit" "minutes"))
    [ (is_ValueError, fun _ => Raise ConfigurationError) ].

Section Check.
Context {N : PyNumerics}.

Definition convert_result (self : t) (result : xpath_result)
    (timestamp : datetime) : outcome datetime :=
  x ← float_of_result result;
  d ← timedelta_kw (_unit self) x;
  datetime_add timestamp d.

Definition check (self : t)
  : outcome (list xpath_result) -> datetime -> outcome (option datetime) :=
  XPath.check_with (convert_result self).

End Check.
End XPathDelta.

(** ** Construction from the configuration *)

(** The states of [configparser.BOOLEAN_STATES]. *)
Definition BOOLEAN_STATES : list (string * bool) :=
  [ ("1", true); ("yes", true); ("true", true); ("on", true);
    ("0", false); ("no", false); ("false", false); ("off", false) ].

(** [config.getboolean(key, fallback=...)]: the fallback without the
    option; otherwise the state that the value names in lower case, and a
    [ValueError] when it names none. *)
Definition config_getboolean (config : gmap string string) (key : string)
    (fallback : bool) : outcome bool :=
  match config !! key with
  | None => Return fallback
  | Some value =>
      match assoc (Exact.lowercase value) BOOLEAN_STATES with
      | Some b => Return b
      | None => Raise ValueError
      end
  end.

(** The digits of an integer literal after the first one: digits, each
    possibly after one underscore, up to the end of the text. *)
Fixpoint int_digits (acc : Z) (s : string) : option Z :=
  match s with
  | EmptyString => Some acc
  | String c rest =>
      match Exact.digit_of c with
      | Some d => int_digits (10 * acc + d) rest
      | None =>
          if Ascii.eqb c "_" then
            match rest with
            | String c' rest' =>
                match Exact.digit_of c' with
                | Some d => int_digits (10 * acc + d) rest'
                | None => None
                end
            | EmptyString => None
            end
          else None
      end
  end.

(** [int(s)] for a string, [None] when it raises [ValueError]: whitespace
    around, an optional sign, then digits with single underscores between
    them. *)
Definition int_of_string (s : string) : option Z :=
  let '(neg, body) := Exact.sign (Str.number_strip s) in
  match body with
  | String c rest =>
      match Exact.digit_of c with
      | Some d =>
          match int_digits d rest with
          | Some n => Some (if neg : bool then - n else n)
          | None => None
          end
      | None => None
      end
  | EmptyString => None
  end.

(** [config.getint(key, fallback=...)] *)
Definition config_getint (config : gmap string string) (key : string)
    (fallback : Z) : outcome Z :=
  match config !! key with
  | None => Return fallback
  | Some value =>
      match int_of_string value with
      | Some n => Return n
      | None => Raise ValueError
      end
  end.

(** [_add_default_kodi_url] of kodi.py; the configuration it changes in
    place is returned. *)
Definition _add_default_kodi_url (config : gmap string string)
  : gmap string string :=
  match config !! "url" with
  | Some _ => config
  | None => <["url" := "http://localhost:8080/jsonrpc"]> config
  end.

Section KodiConstruction.

(** [NetworkMixin.collect_init_args], which is not among the sources: from
    a configuration, the arguments of the mixin or the exception it
    raises. *)
Context {Args : Type}.
Variable network_collect_init_args : gmap string string -> outcome Args.

(** [Kodi.collect_init_args]: the arguments of the mixin and
    [suspend_while_paused]. *)
Definition Kodi_collect_init_args (config : gmap string string)
  : outcome (Args * bool) :=
  try_except
    (let config := _add_default_kodi_url config in
     args ← network_collect_init_args config;
     suspend_while_paused ← config_getboolean config "suspend_while_paused" false;
     Return (args, suspend_while_paused))
    [ (is_ValueError, raise_from ConfigurationError) ].

(** [Kodi.create]; of the object built, the part that [check] reads. *)
Definition Kodi_create (config : gmap string string) : outcome Kodi.t :=
  '(_, suspend_while_paused) ← Kodi_collect_init_args config;
  Return {| Kodi.suspend_while_paused := suspend_while_paused |}.

(** [KodiIdleTime.collect_init_args] *)
Definition KodiIdleTime_collect_init_args (config : gmap string string)
  : outcome (Args * Z) :=
  try_except
    (let config := _add_default_kodi_url config in
     args ← network_collect_init_args config;
     idle_time ← config_getint config "idle_time" 120;
     Return (args, idle_time))
    [ (is_ValueError, raise_from ConfigurationError) ].

(** [KodiIdleTime.create] *)
Definition KodiIdleTime_create (config : gmap string string)
  : outcome KodiIdleTime.t :=
  '(_, idle_time) ← KodiIdleTime_collect_init_args config;
  Return {| KodiIdleTime.idle_time := idle_time |}.

End KodiConstruction.



(** ** What the theorems speak of *)

(** A session passes the two filters of the check. *)
Definition considered (self : LogindSessionsIdle.t)
    (props : LogindSessionsIdle.properties) : Prop :=
  LogindSessionsIdle.SessionType props ∈ LogindSessionsIdle._types self
  /\ LogindSessionsIdle.State props ∈ LogindSessionsIdle._states self.

(** A session does not make the host busy: it is filtered out or idle. *)
Definition passed_over (self : LogindSessionsIdle.t)
    (session : string * LogindSessionsIdle.properties) : Prop :=
  considered self (snd session) -> LogindSessionsIdle.IdleHint (snd session) = true.

(** A name is matched from its start: some text at its start is taken by
    the pattern. *)
Definition matched_at_start (p : Re.fragment) (name : string) : Prop :=
  exists u v, name = (u ++ v)%string /\ Re.takes p u.

(** Both elapse properties of the timer are zero. *)
Definition never_elapses (b : bus) (timer : unit_entry) : Prop :=
  NextElapseUSecRealtime (GetAll b (object_path timer)) = 0
  /\ NextElapseUSecMonotonic (GetAll b (object_path timer)) = 0.

(** The loop reads the clock for the timer: its realtime property is zero
    and its monotonic property is not. *)
Definition reads_clock (b : bus) (timer : unit_entry) : bool :=
  (NextElapseUSecRealtime (GetAll b (object_path timer)) =? 0)
  && negb (NextElapseUSecMonotonic (GetAll b (object_path timer)) =? 0).

(** The number of reads of the clock that the loop makes for [timers]. *)
Definition clock_reads (b : bus) (timers : list unit_entry) : nat :=
  length (List.filter (reads_clock b) timers).

(** An instant in the mapping is selected by the expression: it belongs to
    a unit whose name the expression matches at its start. *)
Definition selected (p : Re.Pattern) (executions : gmap string datetime)
    (t : datetime) : Prop :=
  exists name, executions !! name = Some t /\ Re.attempt p name O = true.

Ltac unfold_bind := unfold mbind, outcome_bind, mret, outcome_ret in *.

(** Three timers and a service: [backup.timer] with a realtime elapse
    (and a monotonic value that is not read), [cron.timer] with a monotonic
    elapse of 90 seconds, [idle.timer] with neither. *)
Definition example_bus : bus := {|
  ListUnits :=
    [ {| unit_name := "backup.timer"; object_path := "/unit/backup" |};
      {| unit_name := "sshd.service"; object_path := "/unit/sshd" |};
      {| unit_name := "cron.timer"; object_path := "/unit/cron" |};
      {| unit_name := "idle.timer"; object_path := "/unit/idle" |} ];
  GetAll := fun path =>
    if String.eqb path "/unit/backup" then
      {| NextElapseUSecRealtime := 1700000000000000; NextElapseUSecMonotonic := 5 |}
    else if String.eqb path "/unit/cron" then
      {| NextElapseUSecRealtime := 0; NextElapseUSecMonotonic := 90000000 |}
    else {| NextElapseUSecRealtime := 0; NextElapseUSecMonotonic := 0 |}
|}.

(** A clock that stands at 2026-01-01T00:00:00 UTC. *)
Definition example_clock : clock := fun _ => 1767225600000000.

Definition example_executions : gmap string datetime :=
  <["cron.timer" := utc_instant 1767225690000000]>
    (<["backup.timer" := utc_instant 1700000000000000]> ∅).

(** The two membership tests of [check] on a session. *)
Definition passes_filters (self : LogindSessionsIdle.t)
    (session : string * LogindSessionsIdle.properties) : bool :=
  Str.str_in (LogindSessionsIdle.SessionType (snd session))
             (LogindSessionsIdle._types self)
  && Str.str_in (LogindSessionsIdle.State (snd session))
                (LogindSessionsIdle._states self).

(** An exception that the handlers of [File.check] let through. *)
Definition escapes_file_check (e : exn) : Prop :=
  is_FileNotFoundError e = false /\ any_of [is_ValueError; is_IOError] e = false.

(** A bus with one good timer and one whose realtime property holds the
    largest 64-bit value, which is past the range of [datetime]. *)
Definition example_bad_bus : bus := {|
  ListUnits :=
    [ {| unit_name := "backup.timer"; object_path := "/unit/backup" |};
      {| unit_name := "never.timer"; object_path := "/unit/never" |} ];
  GetAll := fun path =>
    if String.eqb path "/unit/backup" then
      {| NextElapseUSecRealtime := 1700000000000000; NextElapseUSecMonotonic := 0 |}
    else
      {| NextElapseUSecRealtime := 18446744073709551615;
         NextElapseUSecMonotonic := 0 |}
|}.

(** Two timers that have only a monotonic property, and a clock that
    advances by one second at every read. *)
Definition example_monotonic_bus : bus := {|
  ListUnits :=
    [ {| unit_name := "first.timer"; object_path := "/unit/first" |};
      {| unit_name := "second.timer"; object_path := "/unit/second" |} ];
  GetAll := fun path =>
    if String.eqb path "/unit/first" then
      {| NextElapseUSecRealtime := 0; NextElapseUSecMonotonic := 90000000 |}
    else
      {| NextElapseUSecRealtime := 0; NextElapseUSecMonotonic := 30000000 |}
|}.

Definition example_ticking_clock : clock :=
  fun reads => 1767225600000000 + 1000000 * Z.of_nat reads.

Definition example_monotonic_executions : gmap string datetime :=
  <["second.timer" := utc_instant 1767225631000000]>
    (<["first.timer" := utc_instant 1767225690000000]> ∅).

(** * Properties *)

(** ** Generic facts *)

Lemma str_in_elem_of (x : string) (l : list string) :
  Str.str_in x l = true <-> x ∈ l.
Proof.
  unfold Str.str_in. rewrite existsb_exists. split.
  - intros (y & Hy & Heq). apply String.eqb_eq in Heq. subst y.
    by apply list_elem_of_In.
  - intros Hin. exists x. split; [by apply list_elem_of_In | apply String.eqb_refl].
Qed.

Lemma str_in_not_elem_of (x : string) (l : list string) :
  Str.str_in x l = false <-> x ∉ l.
Proof.
  rewrite <- str_in_elem_of. destruct (Str.str_in x l); split; congruence.
Qed.

(** ** kodi.py *)

(** C1 (the code at the input that breaks the claim).  With
    [suspend_while_paused] set, a reply whose [result] object lacks the key
    [Player.Playing] makes [Kodi.check] return nothing, where the claim has
    it raise [TemporaryCheckError]; [KodiIdleTime.check] raises
    [TemporaryCheckError] on the same reply. *)
Theorem Kodi_check_missing_key_reads_as_idle :
  let reply := Return (Json (JObj [("result", JObj [])])) in
  Kodi.check {| Kodi.suspend_while_paused := true |} reply = Return None
  /\ forall idle_time,
       KodiIdleTime.check {| KodiIdleTime.idle_time := idle_time |} reply
       = Raise TemporaryCheckError.
Proof. split; [reflexivity | intros idle_time; reflexivity]. Qed.

(** Without [suspend_while_paused], a [result] of a wrong type is read by
    its truth value and no error is raised. *)
Lemma Kodi_check_wrong_type_reads_as_playing :
  Kodi.check {| Kodi.suspend_while_paused := false |}
             (Return (Json (JObj [("result", JStr "error")])))
  = Return (Some "Kodi currently playing").
Proof. reflexivity. Qed.

(** With [suspend_while_paused], a [result] that is no object lets an
    [AttributeError] escape. *)
Lemma Kodi_check_result_not_an_object :
  Kodi.check {| Kodi.suspend_while_paused := true |}
             (Return (Json (JObj [("result", JArr [])])))
  = Raise AttributeError.
Proof. reflexivity. Qed.

(** The parts of the parse policy that [Kodi.check] does keep: a body that
    is not JSON, a reply that is no object and a reply without [result] raise
    [TemporaryCheckError] in both modes. *)
Lemma Kodi_check_unusable_reply (self : Kodi.t) (r : response) :
  (r = NotJson \/ exists v e, r = Json v /\ subscript v "result" = Raise e) ->
  Kodi.check self (Return r) = Raise TemporaryCheckError.
Proof.
  intros [-> | (v & e & -> & H)]; [reflexivity|].
  unfold Kodi.check, Kodi._safe_request_result. simpl.
  unfold mbind, outcome_bind in *. rewrite H.
  destruct v; simpl in H; try (injection H as <-; reflexivity).
  destruct (assoc "result" members); [discriminate | injection H as <-; reflexivity].
Qed.

(** ** LogindSessionsIdle *)

Lemma scan_passed_over self session rest :
  passed_over self session ->
  LogindSessionsIdle.scan self (session :: rest) = LogindSessionsIdle.scan self rest.
Proof.
  destruct session as [sid props]. unfold passed_over, considered. simpl.
  intros Hp.
  destruct (Str.str_in (LogindSessionsIdle.SessionType props) _) eqn:Ht; simpl; [|done].
  destruct (Str.str_in (LogindSessionsIdle.State props) _) eqn:Hs; simpl; [|done].
  rewrite Hp; [done|]. split; by apply str_in_elem_of.
Qed.

Lemma scan_busy self sid props rest :
  considered self props -> LogindSessionsIdle.IdleHint props = false ->
  LogindSessionsIdle.scan self ((sid, props) :: rest)
  = Some ("Login session " ++ sid ++ " is not idle")%string.
Proof.
  intros [Ht Hs] Hidle. simpl.
  apply str_in_elem_of in Ht, Hs. by rewrite Ht, Hs, Hidle.
Qed.

(** C7.  [check] visits the sessions in the order of the bus answer and
    never fails on a session: sessions whose type or state is outside the
    configured sets are passed over whatever their idle hint; the first
    session left whose idle hint is false gives the reason
    [Login session <id> is not idle]; when every session left is idle, or
    none is left, the result is nothing. *)
Theorem LogindSessionsIdle_check_first_non_idle
    (self : LogindSessionsIdle.t)
    (sessions : list (string * LogindSessionsIdle.properties)) :
  (forall before sid props rest,
      sessions = (before ++ (sid, props) :: rest)%list ->
      Forall (passed_over self) before ->
      considered self props ->
      LogindSessionsIdle.IdleHint props = false ->
      LogindSessionsIdle.check self (Return sessions)
      = Return (Some ("Login session " ++ sid ++ " is not idle")%string))
  /\ (Forall (passed_over self) sessions ->
      LogindSessionsIdle.check self (Return sessions) = Return None)
  /\ (exists answer, LogindSessionsIdle.check self (Return sessions) = Return answer).
Proof.
  unfold LogindSessionsIdle.check. simpl. split; [|split].
  - intros before sid props rest -> Hbefore Hc Hidle. f_equal.
    induction Hbefore as [|s before Hs _ IH]; simpl app.
    + by apply scan_busy.
    + rewrite scan_passed_over; done.
  - intros Hall. f_equal.
    induction Hall as [|s l Hs _ IH]; [done|].
    rewrite scan_passed_over; done.
  - eexists. reflexivity.
Qed.

Lemma LogindSessionsIdle_check_witness :
  let self := LogindSessionsIdle.create ∅ in
  let tty idle := {| LogindSessionsIdle.SessionType := "tty";
                     LogindSessionsIdle.State := "active";
                     LogindSessionsIdle.IdleHint := idle |} in
  let mir := {| LogindSessionsIdle.SessionType := "mir";
                LogindSessionsIdle.State := "active";
                LogindSessionsIdle.IdleHint := false |} in
  LogindSessionsIdle.check self
    (Return [("c1", mir); ("2", tty true); ("3", tty false); ("4", tty false)])
  = Return (Some "Login session 3 is not idle")
  /\ LogindSessionsIdle.check self (Return [("c1", mir); ("2", tty true)])
     = Return None.
Proof.
  intros self tty mir.
  assert (Hmir : forall sid, passed_over self (sid, mir)).
  { intros sid [H _]. apply str_in_elem_of in H. vm_compute in H. discriminate. }
  assert (Hidle : forall sid, passed_over self (sid, tty true)).
  { intros sid _. reflexivity. }
  split.
  - apply (proj1 (LogindSessionsIdle_check_first_non_idle self _)
             [("c1", mir); ("2", tty true)] "3" (tty false) [("4", tty false)]).
    + reflexivity.
    + constructor; [apply Hmir | constructor; [apply Hidle | constructor]].
    + split; apply str_in_elem_of; reflexivity.
    + reflexivity.
  - apply (proj1 (proj2 (LogindSessionsIdle_check_first_non_idle self _))).
    constructor; [apply Hmir | constructor; [apply Hidle | constructor]].
Defined.

(** ** wakeup.py: File and Command *)

Section FileAndCommand.
Context {N : PyNumerics}.

(** C3 (the code at the input that breaks the claim).  A file that exists
    and is empty has no first line: [File.check] lets the [IndexError] of
    [splitlines()[0]] escape, where the claim has every unparsable file
    raise [TemporaryCheckError] and no other exception escape. *)
Theorem File_check_empty_file_escapes (timestamp : datetime) :
  Str.str_splitlines "" = []
  /\ File.check (Return "") timestamp = Raise IndexError.
Proof. split; reflexivity. Qed.

(** A missing file is nothing scheduled. *)
Lemma File_check_missing (timestamp : datetime) :
  File.check (Raise FileNotFoundError) timestamp = Return None.
Proof. reflexivity. Qed.

(** Any other error of the operating system, and a text that does not
    decode, is a [TemporaryCheckError]. *)
Lemma File_check_read_error (e : exn) (timestamp : datetime) :
  is_FileNotFoundError e = false ->
  any_of [is_ValueError; is_IOError] e = true ->
  File.check (Raise e) timestamp = Raise TemporaryCheckError.
Proof.
  intros Hnf Hcaught. unfold File.check. simpl in *. by rewrite Hnf, Hcaught.
Qed.

(** A first line that is no number is a [TemporaryCheckError]. *)
Lemma File_check_unparsable (text line : string) (rest : list string)
    (timestamp : datetime) :
  Str.str_splitlines text = line :: rest ->
  float_of_string (Str.str_strip line) = None ->
  File.check (Return text) timestamp = Raise TemporaryCheckError.
Proof.
  intros Hlines Hfloat. unfold File.check, float. simpl.
  by rewrite Hlines; simpl; rewrite Hfloat.
Qed.

(** A first line that is a number gives the UTC instant of that
    timestamp; the lines after it are not read. *)
Lemma File_check_parsed (text line : string) (rest : list string)
    (x : pyfloat) (us : Z) (timestamp : datetime) :
  Str.str_splitlines text = line :: rest ->
  float_of_string (Str.str_strip line) = Some x ->
  timestamp_micros x = Return us ->
  File.check (Return text) timestamp = Return (Some (utc_instant us)).
Proof.
  intros Hlines Hfloat Hus. unfold File.check, float, fromtimestamp_utc. simpl.
  by rewrite Hlines; simpl; rewrite Hfloat; simpl; rewrite Hus.
Qed.

(** C2 (the code at the input that breaks the claim).  A command that
    exits with status zero and writes nothing has no first line of output:
    [Command.check] lets the [IndexError] of [splitlines()[0]] escape, where
    the claim has it return nothing. *)
Theorem Command_check_empty_stdout_escapes (timestamp : datetime) :
  Str.bytes_splitlines "" = []
  /\ Command.check (Return "") timestamp = Raise IndexError.
Proof. split; reflexivity. Qed.

(** Output whose first line is blank is nothing scheduled. *)
Lemma Command_check_blank_line (stdout line : string) (rest : list string)
    (timestamp : datetime) :
  Str.bytes_splitlines stdout = line :: rest ->
  Str.bytes_strip line = "" ->
  Command.check (Return stdout) timestamp = Return None.
Proof.
  intros Hlines Hblank. unfold Command.check. simpl.
  by rewrite Hlines; simpl; rewrite Hblank.
Qed.

(** A command that fails: [SevereCheckError] when it was not found,
    [TemporaryCheckError] otherwise. *)
Lemma Command_check_failed (not_found : bool) (timestamp : datetime) :
  Command.check (Raise (CalledProcessError not_found)) timestamp
  = Raise (if not_found then SevereCheckError else TemporaryCheckError).
Proof. by destruct not_found. Qed.

(** A first line that is not blank and is no number is a
    [TemporaryCheckError]. *)
Lemma Command_check_unparsable (stdout line : string) (rest : list string)
    (timestamp : datetime) :
  Str.bytes_splitlines stdout = line :: rest ->
  Str.bytes_strip line <> "" ->
  float_of_string (Str.bytes_strip line) = None ->
  Command.check (Return stdout) timestamp = Raise TemporaryCheckError.
Proof.
  intros Hlines Hblank Hfloat. unfold Command.check, float. simpl.
  rewrite Hlines; simpl.
  destruct (Str.bytes_strip line) eqn:Hs; [done|]. simpl.
  by rewrite Hfloat.
Qed.

Lemma Command_check_parsed (stdout line : string) (rest : list string)
    (x : pyfloat) (us : Z) (timestamp : datetime) :
  Str.bytes_splitlines stdout = line :: rest ->
  Str.bytes_strip line <> "" ->
  float_of_string (Str.bytes_strip line) = Some x ->
  timestamp_micros x = Return us ->
  Command.check (Return stdout) timestamp = Return (Some (utc_instant us)).
Proof.
  intros Hlines Hblank Hfloat Hus.
  unfold Command.check, float, fromtimestamp_utc. simpl.
  rewrite Hlines; simpl.
  destruct (Str.bytes_strip line) eqn:Hs; [done|]. simpl.
  by rewrite Hfloat; simpl; rewrite Hus.
Qed.

End FileAndCommand.

(** The examples of the spec for the file check. *)
Example File_check_examples :
  let T := utc_instant 1767225600000000 in
  File.check (N := ExactNumerics) (Return "1700000000") T
  = Return (Some (utc_instant 1700000000000000))
  /\ File.check (N := ExactNumerics) (Raise FileNotFoundError) T = Return None
  /\ File.check (N := ExactNumerics) (Return "not-a-number") T
     = Raise TemporaryCheckError.
Proof. repeat split; vm_compute; reflexivity. Qed.

(** ** The earliest of several instants *)

Lemma datetime_lt_same_tz (a b : datetime) :
  tz a = tz b -> datetime_lt a b = Return (wall a <? wall b).
Proof.
  unfold datetime_lt, utc_micros. intros Heq.
  destruct (tz a) as [za|], (tz b) as [zb|]; try discriminate; [|done].
  injection Heq as ->. f_equal.
  destruct (Z.ltb_spec (wall a - utcoffset zb) (wall b - utcoffset zb)),
           (Z.ltb_spec (wall a) (wall b)); (done || lia).
Qed.

(** When every conversion succeeds and all values are in one time zone
    (or all are naive), the loop of [min] ends with a least value. *)
Lemma min_loop_least {A : Type} (convert : A -> outcome datetime)
    (zone : option tzinfo) (rest : list A) (values : list datetime) :
  Forall2 (fun m t => convert m = Return t) rest values ->
  Forall (fun t => tz t = zone) values ->
  forall best, tz best = zone ->
  exists r, min_loop convert best rest = Return r
            /\ r ∈ best :: values
            /\ forall t, t ∈ best :: values -> wall r <= wall t.
Proof.
  induction 1 as [|m t rest values Hm _ IH]; intros Hzone best Hbest.
  - exists best. split; [done|]. split; [by left|].
    intros t Ht. apply list_elem_of_singleton in Ht. subst. lia.
  - apply Forall_cons in Hzone as [Ht Hzone]. simpl.
    rewrite Hm. simpl. rewrite datetime_lt_same_tz by congruence. simpl.
    destruct (Z.ltb_spec (wall t) (wall best)) as [Hlt|Hge].
    + destruct (IH Hzone t Ht) as (r & Hr & Hin & Hmin).
      exists r. split; [done|]. split.
      * apply elem_of_cons in Hin as [->|Hin]; [right; by left | by do 2 right].
      * intros u Hu. apply elem_of_cons in Hu as [->|Hu].
        -- specialize (Hmin t ltac:(by left)). lia.
        -- by apply Hmin.
    + destruct (IH Hzone best Hbest) as (r & Hr & Hin & Hmin).
      exists r. split; [done|]. split.
      * apply elem_of_cons in Hin as [->|Hin]; [by left | by do 2 right].
      * intros u Hu. apply elem_of_cons in Hu as [->|Hu]; [apply Hmin; by left|].
        apply elem_of_cons in Hu as [->|Hu].
        -- specialize (Hmin best ltac:(by left)). lia.
        -- apply Hmin. by right.
Qed.

Lemma min_of_least {A : Type} (convert : A -> outcome datetime)
    (zone : option tzinfo) (l : list A) (values : list datetime) :
  l <> [] ->
  Forall2 (fun m t => convert m = Return t) l values ->
  Forall (fun t => tz t = zone) values ->
  exists r, min_of convert l = Return r
            /\ r ∈ values
            /\ forall t, t ∈ values -> wall r <= wall t.
Proof.
  intros Hne Hconv Hzone. destruct Hconv as [|m t rest values Hm Hrest]; [done|].
  apply Forall_cons in Hzone as [Ht Hzone]. simpl. rewrite Hm. simpl.
  by apply (min_loop_least convert zone).
Qed.

(** Whatever [min] returns has a property that the candidate and every
    converted value have. *)
Lemma min_loop_among {A : Type} (convert : A -> outcome datetime)
    (P : datetime -> Prop) (rest : list A) :
  (forall m t, m ∈ rest -> convert m = Return t -> P t) ->
  forall best r, P best -> min_loop convert best rest = Return r -> P r.
Proof.
  induction rest as [|m rest IH]; intros Hconv best r Hbest; simpl.
  - by intros [= <-].
  - destruct (convert m) as [t|e] eqn:Hm; simpl; [|done].
    destruct (datetime_lt t best) as [smaller|e]; simpl; [|done].
    apply IH; [intros m' t' Hin; apply Hconv; by right|].
    destruct smaller; [apply (Hconv m); [by left | done] | done].
Qed.

Lemma min_of_among {A : Type} (convert : A -> outcome datetime)
    (P : datetime -> Prop) (l : list A) (r : datetime) :
  (forall m t, m ∈ l -> convert m = Return t -> P t) ->
  min_of convert l = Return r -> P r.
Proof.
  intros Hconv. destruct l as [|m rest]; simpl; [done|].
  destruct (convert m) as [t|e] eqn:Hm; simpl; [|done].
  apply (min_loop_among convert P rest).
  - intros m' t' Hin. apply Hconv. by right.
  - apply (Hconv m); [by left | done].
Qed.

(** ** Regular expressions: the matcher against the texts a pattern takes *)

Lemma str_app_cons (c : ascii) (u v : string) :
  (String c u ++ v)%string = String c (u ++ v)%string.
Proof. reflexivity. Qed.

Lemma str_app_nil_l (v : string) : ("" ++ v)%string = v.
Proof. reflexivity. Qed.

Lemma str_app_nil_r (u : string) : (u ++ "")%string = u.
Proof.
  induction u as [|c u IH]; [done|]. by rewrite str_app_cons, IH.
Qed.

Lemma str_app_eq_nil (u v : string) :
  (u ++ v)%string = "" -> u = "" /\ v = "".
Proof.
  destruct u; [by rewrite str_app_nil_l | rewrite str_app_cons; discriminate].
Qed.

Lemma str_app_eq_cons (u v : string) (c : ascii) (w : string) :
  (u ++ v)%string = String c w ->
  (u = "" /\ v = String c w)
  \/ exists u', u = String c u' /\ w = (u' ++ v)%string.
Proof.
  destruct u as [|d u']; [rewrite str_app_nil_l; by left|].
  rewrite str_app_cons. intros H. injection H as -> <-. right. by exists u'.
Qed.

Lemma nullable_takes (p : Re.fragment) :
  Re.nullable p = true <-> Re.takes p "".
Proof.
  split.
  - induction p as [| | | |p1 IH1 p2 IH2|p1 IH1 p2 IH2|p1 IH1]; simpl; try discriminate.
    + intros _. constructor.
    + intros [H1 H2]%andb_true_iff.
      change "" with ("" ++ "")%string. constructor; auto.
    + intros [H|H]%orb_true_iff; [apply Re.takes_alt_l | apply Re.takes_alt_r]; auto.
    + intros _. constructor.
  - intros H. remember "" as s eqn:Hs.
    induction H as [|c|c Hc|p q u v Hp IHp Hq IHq|p q u Hp IHp|p q u Hq IHq
                    |p|p u v Hp IHp Hs' IHs]; simpl; try done.
    + apply str_app_eq_nil in Hs as [-> ->]. by rewrite IHp, IHq.
    + by rewrite IHp.
    + rewrite IHq by done. apply orb_true_r.
Qed.

Lemma after_sound (c : ascii) (p : Re.fragment) :
  forall w, Re.takes (Re.after c p) w -> Re.takes p (String c w).
Proof.
  induction p as [| |d| |p1 IH1 p2 IH2|p1 IH1 p2 IH2|p1 IH1]; simpl; intros w H.
  - inversion H.
  - inversion H.
  - destruct (Ascii.eqb c d) eqn:Hcd; inversion H; subst.
    apply Ascii.eqb_eq in Hcd as ->. constructor.
  - destruct (Str.is_lf c) eqn:Hc; inversion H; subst. by constructor.
  - assert (Hcat : forall w', Re.takes (Re.Cat (Re.after c p1) p2) w' ->
                              Re.takes (Re.Cat p1 p2) (String c w')).
    { intros w' H'. inversion H' as [| | |p q u v Hu Hv| | | |]; subst.
      change (String c (u ++ v)) with (String c u ++ v)%string.
      constructor; auto. }
    destruct (Re.nullable p1) eqn:Hn; [|by apply Hcat].
    inversion H as [| | | |p q u Hu|p q u Hu| |]; subst; [by apply Hcat|].
    change (String c w) with ("" ++ String c w)%string.
    constructor; [by apply nullable_takes | auto].
  - inversion H; subst; [apply Re.takes_alt_l | apply Re.takes_alt_r]; auto.
  - inversion H as [| | |p q u v Hu Hv| | | |]; subst.
    change (String c (u ++ v)) with (String c u ++ v)%string.
    apply Re.takes_star_app; auto.
Qed.

Lemma after_complete (p : Re.fragment) (s : string) :
  Re.takes p s -> forall c w, s = String c w -> Re.takes (Re.after c p) w.
Proof.
  induction 1 as [|d|d Hd|p q u v Hp IHp Hq IHq|p q u Hp IHp|p q u Hq IHq
                  |p|p u v Hp IHp Hs IHs]; intros c w Heq; simpl.
  - discriminate.
  - injection Heq as -> <-. rewrite Ascii.eqb_refl. constructor.
  - injection Heq as -> <-. rewrite Hd. constructor.
  - apply str_app_eq_cons in Heq as [[-> ->] | (u' & -> & ->)].
    + apply nullable_takes in Hp. rewrite Hp. apply Re.takes_alt_r. by apply IHq.
    + assert (Re.takes (Re.Cat (Re.after c p) q) (u' ++ v)) as Hcat
          by (constructor; [by apply IHp | done]).
      destruct (Re.nullable p); [by apply Re.takes_alt_l | done].
    - apply Re.takes_alt_l. by apply IHp.
  - apply Re.takes_alt_r. by apply IHq.
  - discriminate.
  - apply str_app_eq_cons in Heq as [[-> ->] | (u' & -> & ->)].
    + by apply IHs.
    + constructor; [by apply IHp | done].
Qed.

Lemma after_takes (c : ascii) (p : Re.fragment) (w : string) :
  Re.takes (Re.after c p) w <-> Re.takes p (String c w).
Proof.
  split; [apply after_sound | intros H; by apply (after_complete p (String c w))].
Qed.

Lemma matches_at_start (p : Re.fragment) (s : string) :
  Re.matches p s = true <-> matched_at_start p s.
Proof.
  unfold matched_at_start. revert p.
  induction s as [|c s IH]; intros p; simpl.
  - rewrite orb_false_r, nullable_takes. split.
    + intros H. by exists "", "".
    + intros (u & v & Heq & H). symmetry in Heq.
      by apply str_app_eq_nil in Heq as [-> _].
  - rewrite orb_true_iff, nullable_takes, IH. split.
    + intros [H | (u & v & -> & H)].
      * by exists "", (String c s).
      * exists (String c u), v. split; [done | by apply after_takes].
    + intros (u & v & Heq & H). symmetry in Heq.
      apply str_app_eq_cons in Heq as [[-> _] | (u' & -> & ->)]; [by left|].
      right. exists u', v. split; [done | by apply after_takes].
Qed.

(** The compiled expression of a fragment matches a text exactly when
    the fragment takes some text at its start. *)
Lemma compile_match_at_start (p : Re.fragment) (s : string) :
  Re.Pattern_match (Re.compile p) s = true <-> matched_at_start p s.
Proof. apply matches_at_start. Qed.

Lemma fullmatch_takes (p : Re.fragment) (s : string) :
  Re.fullmatch p s = true <-> Re.takes p s.
Proof.
  revert p. induction s as [|c s IH]; intros p; simpl.
  - apply nullable_takes.
  - rewrite IH. apply after_takes.
Qed.

Lemma literal_takes (s : string) : Re.takes (Re.literal s) s.
Proof.
  induction s as [|c s IH]; simpl; [constructor|].
  change (String c s) with (String c "" ++ s)%string.
  constructor; [constructor | done].
Qed.

(** ** systemd.py: the timers *)

Section TimerFacts.
Context {N : PyNumerics}.

Lemma fromtimestamp_utc_is_utc (x : pyfloat) (t : datetime) :
  fromtimestamp_utc x = Return t -> tz t = Some utc.
Proof.
  unfold fromtimestamp_utc. unfold_bind.
  destruct (timestamp_micros x); [|done]. by intros [= <-].
Qed.

Lemma datetime_add_tz (t : datetime) (d : timedelta) (r : datetime) :
  datetime_add t d = Return r -> tz r = tz t /\ wall r = wall t + d.
Proof.
  unfold datetime_add. destruct (datetime_in_range _); [|done]. by intros [= <-].
Qed.

Lemma next_time_is_utc (now : clock) (reads reads' : nat) (props : timer_props)
    (t : datetime) :
  next_time now reads props = Return (Some t, reads') -> tz t = Some utc.
Proof.
  unfold next_time. unfold_bind.
  destruct (negb (NextElapseUSecRealtime props =? 0)).
  - destruct (fromtimestamp_utc _) as [t'|] eqn:Ht; [|done].
    intros [= <- _]. by apply fromtimestamp_utc_is_utc in Ht.
  - destruct (negb (NextElapseUSecMonotonic props =? 0)); [|done].
    destruct (timedelta_kw _ _) as [d|]; [|done].
    destruct (datetime_add _ d) as [t'|] eqn:Ht; [|done].
    intros [= <- _]. by apply datetime_add_tz in Ht as [-> _].
Qed.

Lemma record_timer_all_utc (b : bus) (now : clock)
    (result result' : gmap string datetime) (reads reads' : nat)
    (timer : unit_entry) :
  map_Forall (fun _ t => tz t = Some utc) result ->
  record_timer b now (result, reads) timer = Return (result', reads') ->
  map_Forall (fun _ t => tz t = Some utc) result'.
Proof.
  intros Hall. unfold record_timer. unfold_bind.
  destruct (next_time _ _ _) as [[[t|] k]|] eqn:Hnext; [| |done].
  - intros [= <- _]. apply map_Forall_insert_2; [|done].
    by apply next_time_is_utc in Hnext.
  - by intros [= <- _].
Qed.

Lemma record_timers_all_utc (b : bus) (now : clock) (timers : list unit_entry) :
  forall result reads result' reads',
    map_Forall (fun _ t => tz t = Some utc) result ->
    record_timers b now (result, reads) timers = Return (result', reads') ->
    map_Forall (fun _ t => tz t = Some utc) result'.
Proof.
  induction timers as [|timer timers IH]; intros result reads result' reads' Hall;
    cbn [record_timers].
  - by intros [= <- _].
  - unfold_bind.
    destruct (record_timer b now (result, reads) timer) as [[r k]|] eqn:Hstep; [|done].
    apply IH. by apply (record_timer_all_utc b now result r reads k timer).
Qed.

Lemma next_timer_executions_all_utc (b : bus) (now : clock)
    (executions : gmap string datetime) :
  next_timer_executions b now = Return executions ->
  map_Forall (fun _ t => tz t = Some utc) executions.
Proof.
  unfold next_timer_executions. unfold_bind.
  destruct (record_timers _ _ _ _) as [[r k]|] eqn:Hloop; [|done].
  intros [= <-].
  apply (record_timers_all_utc b now (timers_of b) ∅ O r k); [|done].
  apply map_Forall_empty.
Qed.

Lemma record_timer_never_elapses (b : bus) (now : clock)
    (result : gmap string datetime) (reads : nat) (timer : unit_entry) :
  never_elapses b timer ->
  record_timer b now (result, reads) timer = Return (result, reads).
Proof.
  intros [Hr Hm]. unfold record_timer, next_time. by rewrite Hr, Hm.
Qed.

Lemma record_timers_no_entry (b : bus) (now : clock) (name : string)
    (timers : list unit_entry) :
  (forall u, u ∈ timers -> unit_name u = name -> never_elapses b u) ->
  forall result reads result' reads',
    result !! name = None ->
    record_timers b now (result, reads) timers = Return (result', reads') ->
    result' !! name = None.
Proof.
  induction timers as [|timer timers IH]; intros Hzero result reads result' reads' Hnone;
    cbn [record_timers].
  - by intros [= <- _].
  - unfold_bind.
    destruct (record_timer b now (result, reads) timer) as [[r k]|] eqn:Hstep; [|done].
    apply IH; [intros u Hu; apply Hzero; by right|].
    destruct (decide (unit_name timer = name)) as [Heq|Hne].
    + rewrite record_timer_never_elapses in Hstep
        by (apply Hzero; [by left | done]).
      by injection Hstep as <- _.
    + unfold record_timer in Hstep. unfold_bind.
      destruct (next_time _ _ _) as [[[t|] k']|]; [| |done].
      * injection Hstep as <- _. by rewrite lookup_insert_ne.
      * by injection Hstep as <- _.
Qed.

Lemma timers_of_listed (b : bus) (u : unit_entry) :
  u ∈ timers_of b -> u ∈ ListUnits b.
Proof.
  unfold timers_of. rewrite !list_elem_of_In, filter_In. tauto.
Qed.

Lemma elem_of_matching_executions (self : SystemdTimer.t)
    (executions : gmap string datetime) (t : datetime) :
  t ∈ SystemdTimer.matching_executions self executions
  <-> selected (SystemdTimer._match self) executions t.
Proof.
  unfold SystemdTimer.matching_executions, selected, Re.Pattern_match.
  rewrite list_elem_of_In, in_map_iff. split.
  - intros ([name t'] & Heq & Hin). simpl in Heq. subst t'.
    apply filter_In in Hin as [Hin Hmatch]. simpl in Hmatch.
    exists name. split; [|done].
    by apply elem_of_map_to_list, list_elem_of_In.
  - intros (name & Hlookup & Hmatch). exists (name, t). split; [done|].
    apply filter_In. split; [|done].
    by apply list_elem_of_In, elem_of_map_to_list.
Qed.

Lemma next_time_some_elapses (b : bus) (now : clock) (reads reads' : nat)
    (timer : unit_entry) (t : datetime) :
  next_time now reads (GetAll b (object_path timer)) = Return (Some t, reads') ->
  ~ never_elapses b timer.
Proof.
  intros Hnext [Hr Hm]. unfold next_time in Hnext. by rewrite Hr, Hm in Hnext.
Qed.

Lemma record_timers_keeps_other (b : bus) (now : clock) (name : string)
    (timers : list unit_entry) :
  name ∉ map unit_name timers ->
  forall result reads result' reads',
    record_timers b now (result, reads) timers = Return (result', reads') ->
    result' !! name = result !! name.
Proof.
  induction timers as [|timer timers IH];
    intros Hout result reads result' reads'; cbn [record_timers].
  - by intros [= <- _].
  - unfold_bind. cbn [map] in Hout. apply not_elem_of_cons in Hout as [Hne Hout].
    destruct (record_timer b now (result, reads) timer) as [[r k]|] eqn:Hstep; [|done].
    intros Hrest. rewrite (IH Hout r k result' reads' Hrest).
    clear Hrest IH. unfold record_timer in Hstep. unfold_bind.
    destruct (next_time now reads (GetAll b (object_path timer)))
      as [[[t|] k']|]; [| |done].
    + injection Hstep as <- _. by rewrite lookup_insert_ne.
    + by injection Hstep as <- _.
Qed.

Lemma record_timers_realtime_entry (b : bus) (now : clock) (u : unit_entry)
    (us : Z) (timers : list unit_entry) :
  NoDup (map unit_name timers) ->
  u ∈ timers ->
  NextElapseUSecRealtime (GetAll b (object_path u)) <> 0 ->
  timestamp_micros
    (int_truediv (NextElapseUSecRealtime (GetAll b (object_path u))) 1000000)
  = Return us ->
  forall result reads result' reads',
    record_timers b now (result, reads) timers = Return (result', reads') ->
    result' !! unit_name u = Some (utc_instant us).
Proof.
  intros Hnodup Hin Hrt Hus.
  induction timers as [|timer timers IH];
    intros result reads result' reads'; [by apply elem_of_nil in Hin|].
  cbn [record_timers]. unfold_bind. cbn [map] in Hnodup.
  apply NoDup_cons in Hnodup as [Hfresh Hnodup].
  destruct (record_timer b now (result, reads) timer) as [[r k]|] eqn:Hstep; [|done].
  intros Hrest. apply elem_of_cons in Hin as [<- | Hin].
  - rewrite (record_timers_keeps_other b now (unit_name u) timers Hfresh
               r k result' reads' Hrest).
    unfold record_timer, next_time, fromtimestamp_utc in Hstep. unfold_bind.
    apply Z.eqb_neq in Hrt. rewrite Hrt, Hus in Hstep. cbn in Hstep.
    injection Hstep as <- _. by rewrite lookup_insert_eq.
  - by apply (IH Hnodup Hin r k result' reads' Hrest).
Qed.

Lemma record_timers_fails (b : bus) (now : clock) (u : unit_entry)
    (timers : list unit_entry) :
  u ∈ timers ->
  (forall state, exists e, record_timer b now state u = Raise e) ->
  forall state, exists e, record_timers b now state timers = Raise e.
Proof.
  intros Hin Hfail.
  induction timers as [|timer timers IH]; intros state;
    [by apply elem_of_nil in Hin|].
  cbn [record_timers]. unfold_bind.
  apply elem_of_cons in Hin as [<- | Hin].
  - destruct (Hfail state) as [e ->]. by exists e.
  - destruct (record_timer b now state timer) as [state'|e]; [|by exists e].
    by apply IH.
Qed.

End TimerFacts.

Section TimerTheorems.
Context {N : PyNumerics}.

Lemma record_timer_reads (b : bus) (now : clock)
    (result result' : gmap string datetime) (reads reads' : nat)
    (timer : unit_entry) :
  record_timer b now (result, reads) timer = Return (result', reads') ->
  reads' = (reads + if reads_clock b timer then 1 else 0)%nat.
Proof.
  unfold record_timer, next_time, reads_clock. unfold_bind.
  destruct (NextElapseUSecRealtime (GetAll b (object_path timer)) =? 0).
  - destruct (NextElapseUSecMonotonic (GetAll b (object_path timer)) =? 0);
      cbn [negb andb].
    + intros [= _ <-]. lia.
    + destruct (timedelta_kw _ _) as [d|]; [|done].
      destruct (datetime_add _ d) as [t|]; [|done].
      intros [= _ <-]. lia.
  - cbn [negb andb]. destruct (fromtimestamp_utc _) as [t|]; [|done].
    intros [= _ <-]. lia.
Qed.

Lemma record_timers_reads (b : bus) (now : clock) (timers : list unit_entry) :
  forall result reads result' reads',
    record_timers b now (result, reads) timers = Return (result', reads') ->
    reads' = (reads + clock_reads b timers)%nat.
Proof.
  unfold clock_reads.
  induction timers as [|timer timers IH]; intros result reads result' reads';
    cbn [record_timers List.filter].
  - intros [= _ <-]. cbn. lia.
  - unfold_bind.
    destruct (record_timer b now (result, reads) timer) as [[r k]|] eqn:Hstep; [|done].
    intros Hrest. apply IH in Hrest. apply record_timer_reads in Hstep.
    destruct (reads_clock b timer); cbn [length]; lia.
Qed.

Lemma record_timers_app (b : bus) (now : clock) (l1 l2 : list unit_entry) :
  forall state,
    record_timers b now state (l1 ++ l2)%list
    = (state' ← record_timers b now state l1; record_timers b now state' l2).
Proof.
  induction l1 as [|timer l1 IH]; intros state; cbn [app record_timers];
    unfold_bind; [done|].
  destruct (record_timer b now state timer) as [state'|]; [|done]. apply IH.
Qed.

(** C4 (amended).  When [next_timer_executions] returns and the bus lists
    no two timers of one name, the entry of every timer is as follows.  A
    realtime property that is not zero, and that the interpreter converts
    exactly when dividing by 1000000 and reading the quotient as seconds
    since the epoch, gives the UTC instant that many microseconds after the
    epoch, whatever the monotonic property holds.  Otherwise a monotonic
    property that is not zero, and that converts exactly, gives the UTC time
    that the clock returned when it was read for this timer plus that many
    microseconds; the clock is read once for each timer of this kind, in
    the order of the list.  A timer with both at zero has no entry.  A
    realtime property that does not convert makes the call raise. *)
Theorem next_timer_executions_conversion_rule (b : bus) (now : clock) :
  (forall executions before u after,
      next_timer_executions b now = Return executions ->
      NoDup (map unit_name (timers_of b)) ->
      timers_of b = (before ++ u :: after)%list ->
      (NextElapseUSecRealtime (GetAll b (object_path u)) <> 0 ->
       timestamp_micros
         (int_truediv (NextElapseUSecRealtime (GetAll b (object_path u))) 1000000)
       = Return (NextElapseUSecRealtime (GetAll b (object_path u))) ->
       executions !! unit_name u
       = Some (utc_instant (NextElapseUSecRealtime (GetAll b (object_path u)))))
      /\ (NextElapseUSecRealtime (GetAll b (object_path u)) = 0 ->
          NextElapseUSecMonotonic (GetAll b (object_path u)) <> 0 ->
          timedelta_micros 1000000
            (int_truediv (NextElapseUSecMonotonic (GetAll b (object_path u))) 1000000)
          = Return (NextElapseUSecMonotonic (GetAll b (object_path u))) ->
          executions !! unit_name u
          = Some (utc_instant
                    (now (clock_reads b before)
                     + NextElapseUSecMonotonic (GetAll b (object_path u)))))
      /\ (never_elapses b u -> executions !! unit_name u = None))
  /\ (forall u e,
      u ∈ timers_of b ->
      NextElapseUSecRealtime (GetAll b (object_path u)) <> 0 ->
      timestamp_micros
        (int_truediv (NextElapseUSecRealtime (GetAll b (object_path u))) 1000000)
      = Raise e ->
      exists e', next_timer_executions b now = Raise e').
Proof.
  split.
  - intros executions before u after Hexec Hnodup Hsplit.
    unfold next_timer_executions in Hexec. rewrite Hsplit in Hexec, Hnodup.
    unfold_bind.
    destruct (record_timers b now (∅, O) (before ++ u :: after)%list)
      as [[r k]|] eqn:Hloop; [|done].
    injection Hexec as <-.
    rewrite record_timers_app in Hloop. unfold_bind.
    destruct (record_timers b now (∅, O) before) as [[r1 k1]|] eqn:Hbefore; [|done].
    cbn [record_timers] in Hloop. unfold_bind.
    destruct (record_timer b now (r1, k1) u) as [[r2 k2]|] eqn:Hstep; [|done].
    rewrite map_app in Hnodup. cbn [map] in Hnodup.
    apply NoDup_app in Hnodup as (_ & Hdisjoint & Hrest).
    apply NoDup_cons in Hrest as [Hafter _].
    assert (Hfresh : unit_name u ∉ map unit_name before).
    { intros Hin. apply (Hdisjoint _ Hin). by left. }
    rewrite (record_timers_keeps_other b now (unit_name u) after Hafter
               r2 k2 r k Hloop).
    pose proof (record_timers_keeps_other b now (unit_name u) before Hfresh
                  ∅ O r1 k1 Hbefore) as Hr1.
    rewrite lookup_empty in Hr1.
    apply record_timers_reads in Hbefore. cbn in Hbefore. subst k1.
    split; [|split].
    + intros Hrt Hexact.
      unfold record_timer, next_time, fromtimestamp_utc in Hstep. unfold_bind.
      apply Z.eqb_neq in Hrt. rewrite Hrt, Hexact in Hstep. cbn in Hstep.
      injection Hstep as <- _. by rewrite lookup_insert_eq.
    + intros Hrt Hmono Hexact.
      unfold record_timer, next_time, timedelta_kw, datetime_add in Hstep.
      unfold_bind. apply Z.eqb_neq in Hmono. rewrite Hrt, Hmono in Hstep.
      cbn in Hstep. rewrite Hexact in Hstep. cbn in Hstep.
      destruct (datetime_in_range _); [|done].
      injection Hstep as <- _. by rewrite lookup_insert_eq.
    + intros Hnever. rewrite record_timer_never_elapses in Hstep by done.
      by injection Hstep as <- _.
  - intros u e Hin Hrt Hraise.
    destruct (record_timers_fails b now u (timers_of b) Hin)
      with (state := (∅ : gmap string datetime, O)) as [e' He'].
    { intros [result reads]. exists e.
      unfold record_timer, next_time, fromtimestamp_utc. unfold_bind.
      apply Z.eqb_neq in Hrt. by rewrite Hrt, Hraise. }
    exists e'. unfold next_timer_executions. unfold_bind. by rewrite He'.
Qed.

(** C5 (amended).  [SystemdTimer.check] when [next_timer_executions]
    returned its mapping: when the expression matches no name of the
    mapping at its start, the result is nothing; otherwise the result is an
    instant of a matched name that is no later than the instant of any
    matched name, so an instant [x] that is earliest among the matched ones
    is the result.  When [next_timer_executions] raises, the check raises
    the same, whatever the expression matches. *)
Theorem SystemdTimer_check_earliest_match (self : SystemdTimer.t)
    (b : bus) (now : clock) (timestamp : datetime) :
  (forall executions,
      next_timer_executions b now = Return executions ->
      ((forall t, ~ selected (SystemdTimer._match self) executions t) ->
       SystemdTimer.check self b now timestamp = Return None)
      /\ (forall t0, selected (SystemdTimer._match self) executions t0 ->
          exists earliest,
            SystemdTimer.check self b now timestamp = Return (Some earliest)
            /\ selected (SystemdTimer._match self) executions earliest
            /\ forall t, selected (SystemdTimer._match self) executions t ->
                         wall earliest <= wall t)
      /\ (forall x, selected (SystemdTimer._match self) executions x ->
          (forall t, selected (SystemdTimer._match self) executions t ->
                     wall x <= wall t) ->
          SystemdTimer.check self b now timestamp = Return (Some x)))
  /\ (forall e,
      next_timer_executions b now = Raise e ->
      SystemdTimer.check self b now timestamp = Raise e).
Proof.
  split; [|intros e He; unfold SystemdTimer.check; unfold_bind; by rewrite He].
  intros executions Hexec.
  pose proof (next_timer_executions_all_utc b now executions Hexec) as Hutc.
  assert (Hzone : Forall (fun t => tz t = Some utc)
                         (SystemdTimer.matching_executions self executions)).
  { apply Forall_forall. intros t Ht.
    apply elem_of_matching_executions in Ht as (name & Hlookup & _).
    by apply (Hutc name). }
  assert (Hsome : forall t0, selected (SystemdTimer._match self) executions t0 ->
      exists earliest,
        SystemdTimer.check self b now timestamp = Return (Some earliest)
        /\ selected (SystemdTimer._match self) executions earliest
        /\ forall t, selected (SystemdTimer._match self) executions t ->
                     wall earliest <= wall t).
  { intros t0 Ht0. apply elem_of_matching_executions in Ht0.
    unfold SystemdTimer.check. rewrite Hexec. unfold_bind.
    destruct (SystemdTimer.matching_executions self executions)
      as [|first rest] eqn:Hlist; [by apply elem_of_nil in Ht0|].
    apply Forall_cons in Hzone as [Hfirst Hrest].
    destruct (min_loop_least Return (Some utc) rest rest) with (best := first)
      as (r & Hr & Hin & Hmin); [| done | done |].
    { clear. induction rest; by constructor. }
    exists r. unfold py_min. rewrite Hr. simpl. split; [done|].
    split.
    - apply elem_of_matching_executions. by rewrite Hlist.
    - intros t Ht. apply Hmin.
      apply elem_of_matching_executions in Ht. by rewrite Hlist in Ht. }
  split; [|split; [done|]].
  - intros Hnone. unfold SystemdTimer.check. rewrite Hexec. unfold_bind.
    destruct (SystemdTimer.matching_executions self executions)
      as [|first rest] eqn:Hlist; [done|].
    exfalso. apply (Hnone first), elem_of_matching_executions.
    rewrite Hlist. by left.
  - intros x Hx Hleast.
    destruct (Hsome x Hx) as (r & Hr & Hsel & Hmin).
    rewrite Hr. do 2 f_equal.
    assert (wall r = wall x) by (specialize (Hmin x Hx); specialize (Hleast r Hsel); lia).
    destruct Hx as (nx & Hnx & _), Hsel as (nr & Hnr & _).
    apply Hutc in Hnx, Hnr. destruct r, x; simpl in *. congruence.
Qed.

End TimerTheorems.

(** ** The executable numerics on whole microseconds *)

Lemma exact_round_multiple (n : Z) (d : positive) :
  Exact.round_half_even (n * Z.pos d) d = n.
Proof.
  unfold Exact.round_half_even.
  rewrite Z.div_mul, Z.mod_mul by done. simpl. 
  destruct (Z.ltb_spec 0 (Z.pos d)); [done | lia].
Qed.

(** A realtime property within the range of [datetime] converts to itself. *)
Lemma exact_timestamp_of_micros (n : Z) :
  datetime_in_range n = true ->
  Exact.timestamp (Exact.truediv n 1000000) = Return n.
Proof.
  intros Hrange. unfold Exact.timestamp, Exact.truediv, Exact.scale. simpl.
  unfold_bind.
  change 1000000 with (Z.pos 1000000).
  by rewrite exact_round_multiple, Hrange.
Qed.

Lemma exact_duration_of_micros (n : Z) :
  timedelta_in_range n = true ->
  Exact.duration 1000000 (Exact.truediv n 1000000) = Return n.
Proof.
  intros Hrange. unfold Exact.duration, Exact.truediv, Exact.scale. simpl.
  unfold_bind.
  change 1000000 with (Z.pos 1000000).
  by rewrite exact_round_multiple, Hrange.
Qed.

(** ** The examples of the timers *)

Lemma example_executions_computed :
  next_timer_executions (N := ExactNumerics) example_bus example_clock
  = Return example_executions.
Proof. vm_compute. reflexivity. Qed.

Lemma example_executions_entries (name : string) (t : datetime) :
  example_executions !! name = Some t ->
  (name = "cron.timer" /\ t = utc_instant 1767225690000000)
  \/ (name = "backup.timer" /\ t = utc_instant 1700000000000000).
Proof.
  unfold example_executions. intros H.
  apply lookup_insert_Some in H as [[<- <-] | [_ H]]; [by left|].
  apply lookup_insert_Some in H as [[<- <-] | [_ H]]; [by right|].
  by rewrite lookup_empty in H.
Qed.

Lemma example_monotonic_executions_computed :
  next_timer_executions (N := ExactNumerics) example_monotonic_bus
    example_ticking_clock
  = Return example_monotonic_executions.
Proof. vm_compute. reflexivity. Qed.

Lemma next_timer_executions_conversion_witness :
  let backup := {| unit_name := "backup.timer"; object_path := "/unit/backup" |} in
  let cron := {| unit_name := "cron.timer"; object_path := "/unit/cron" |} in
  let idle := {| unit_name := "idle.timer"; object_path := "/unit/idle" |} in
  let first := {| unit_name := "first.timer"; object_path := "/unit/first" |} in
  let second := {| unit_name := "second.timer"; object_path := "/unit/second" |} in
  example_executions !! "backup.timer" = Some (utc_instant 1700000000000000)
  /\ example_executions !! "cron.timer" = Some (utc_instant 1767225690000000)
  /\ example_executions !! "idle.timer" = None
  /\ example_monotonic_executions !! "second.timer"
     = Some (utc_instant (example_ticking_clock 1%nat + 30000000))
  /\ exists e, next_timer_executions (N := ExactNumerics) example_bad_bus
                 example_clock = Raise e.
Proof.
  intros backup cron idle first second.
  pose proof (@next_timer_executions_conversion_rule ExactNumerics
                example_bus example_clock) as [Hmapping _].
  pose proof (@next_timer_executions_conversion_rule ExactNumerics
                example_monotonic_bus example_ticking_clock) as [Hticking _].
  pose proof (@next_timer_executions_conversion_rule ExactNumerics
                example_bad_bus example_clock) as [_ Hraises].
  assert (Hnodup : NoDup (map unit_name (timers_of example_bus)))
    by compute_done.
  split; [|split; [|split; [|split]]].
  - destruct (Hmapping example_executions [] backup [cron; idle]
                example_executions_computed Hnodup eq_refl) as (Hreal & _ & _).
    apply Hreal; [by vm_compute|].
    apply (exact_timestamp_of_micros 1700000000000000). reflexivity.
  - destruct (Hmapping example_executions [backup] cron [idle]
                example_executions_computed Hnodup eq_refl) as (_ & Hmono & _).
    apply Hmono; [reflexivity | by vm_compute |].
    apply (exact_duration_of_micros 90000000). reflexivity.
  - destruct (Hmapping example_executions [backup; cron] idle []
                example_executions_computed Hnodup eq_refl) as (_ & _ & Hnever).
    apply Hnever. split; reflexivity.
  - destruct (Hticking example_monotonic_executions [first] second []
                example_monotonic_executions_computed ltac:(compute_done) eq_refl)
      as (_ & Hmono & _).
    apply Hmono; [reflexivity | by vm_compute |].
    apply (exact_duration_of_micros 30000000). reflexivity.
  - apply (Hraises {| unit_name := "never.timer"; object_path := "/unit/never" |}
             ValueError).
    + apply list_elem_of_In. vm_compute. auto.
    + by vm_compute.
    + vm_compute. reflexivity.
Defined.

(** C4, the claim as written fails: a realtime property that is not zero
    does not always give an instant.  The second timer of [example_bad_bus]
    holds 18446744073709551615 there, no datetime is that many microseconds
    after the epoch, and the call raises ValueError instead of returning a
    mapping; the entry of the first timer, which converts, is lost with
    it. *)
Lemma next_timer_executions_can_raise :
  let never := {| unit_name := "never.timer"; object_path := "/unit/never" |} in
  In never (timers_of example_bad_bus)
  /\ NextElapseUSecRealtime (GetAll example_bad_bus (object_path never))
     = 18446744073709551615
  /\ next_timer_executions (N := ExactNumerics) example_bad_bus example_clock
     = Raise ValueError.
Proof. vm_compute. auto. Qed.

Lemma SystemdTimer_check_witness :
  let T := utc_instant 1767225600000000 in
  let backup :=
    {| SystemdTimer._match := Re.compile (Re.Cat (Re.literal "backup") (Re.Star Re.Dot)) |} in
  let nomatch :=
    {| SystemdTimer._match := Re.compile (Re.Cat (Re.literal "nomatch") (Re.Star Re.Dot)) |} in
  let every := {| SystemdTimer._match := Re.compile (Re.Star Re.Dot) |} in
  SystemdTimer.check (N := ExactNumerics) backup example_bus example_clock T
  = Return (Some (utc_instant 1700000000000000))
  /\ SystemdTimer.check (N := ExactNumerics) nomatch example_bus example_clock T
     = Return None
  /\ SystemdTimer.check (N := ExactNumerics) every example_bus example_clock T
     = Return (Some (utc_instant 1700000000000000))
  /\ SystemdTimer.check (N := ExactNumerics) backup example_bad_bus example_clock T
     = Raise ValueError.
Proof.
  intros T backup nomatch every.
  assert (Hexec : next_timer_executions (N := ExactNumerics) example_bus example_clock
                  = Return example_executions) by (vm_compute; reflexivity).
  assert (Hleast : forall p t, selected p example_executions t ->
                               wall (utc_instant 1700000000000000) <= wall t).
  { intros p t (name & Hlookup & _).
    apply example_executions_entries in Hlookup as [[_ ->] | [_ ->]]; simpl; lia. }
  assert (Hbackup : forall p, Re.attempt p "backup.timer" O = true ->
                              selected p example_executions (utc_instant 1700000000000000)).
  { intros p Hp. exists "backup.timer". split; [reflexivity | exact Hp]. }
  split; [|split; [|split]].
  - apply (proj2 (proj2 (proj1 (@SystemdTimer_check_earliest_match ExactNumerics
             backup example_bus example_clock T) example_executions Hexec))).
    + apply Hbackup. reflexivity.
    + apply Hleast.
  - apply (proj1 (proj1 (@SystemdTimer_check_earliest_match ExactNumerics
             nomatch example_bus example_clock T) example_executions Hexec)).
    intros t (name & Hlookup & Hmatch).
    apply example_executions_entries in Hlookup as [[-> _] | [-> _]];
      vm_compute in Hmatch; discriminate.
  - apply (proj2 (proj2 (proj1 (@SystemdTimer_check_earliest_match ExactNumerics
             every example_bus example_clock T) example_executions Hexec))).
    + apply Hbackup. reflexivity.
    + apply Hleast.
  - apply (proj2 (@SystemdTimer_check_earliest_match ExactNumerics
             backup example_bad_bus example_clock T)).
    vm_compute. reflexivity.
Defined.

(** C5, the claim as written fails: the expression [nomatch.*] matches no
    name that [example_bad_bus] lists, and the check does not return
    nothing, it raises ValueError: the timers are converted before any name
    is matched, and the realtime property of the second one, which the
    expression does not match, does not convert. *)
Lemma SystemdTimer_check_no_match_can_raise :
  let nomatch :=
    {| SystemdTimer._match := Re.compile (Re.Cat (Re.literal "nomatch") (Re.Star Re.Dot)) |} in
  Forall (fun u => Re.Pattern_match (SystemdTimer._match nomatch) (unit_name u) = false)
         (ListUnits example_bad_bus)
  /\ SystemdTimer.check (N := ExactNumerics) nomatch example_bad_bus example_clock
       (utc_instant 1767225600000000)
     = Raise ValueError.
Proof.
  intros nomatch. split; [|vm_compute; reflexivity].
  repeat constructor.
Qed.

(** ** wakeup.py: Periodic *)

Section PeriodicTheorems.
Context {N : PyNumerics}.

Lemma Periodic_create_built (config : gmap string string) (self : Periodic.t) :
  Periodic.create config = Return self ->
  exists unit value x k,
    config !! "unit" = Some unit /\ config !! "value" = Some value
    /\ float_of_string value = Some x
    /\ assoc unit timedelta_keywords = Some k
    /\ timedelta_micros k x = Return (Periodic._delta self).
Proof.
  unfold Periodic.create, config_item, float, timedelta_kw. unfold_bind.
  destruct (config !! "unit") as [unit|] eqn:Hunit; [|done].
  destruct (config !! "value") as [value|] eqn:Hvalue; [|done].
  destruct (float_of_string value) as [x|] eqn:Hx; [|done].
  destruct (assoc unit timedelta_keywords) as [k|] eqn:Hk; [|done].
  destruct (timedelta_micros k x) as [d|e] eqn:Hd.
  - intros [= <-]. by exists unit, value, x, k.
  - simpl. by destruct (_ || _).
Qed.

Lemma Periodic_create_unsupported_unit (config : gmap string string)
    (unit : string) :
  config !! "unit" = Some unit ->
  assoc unit timedelta_keywords = None ->
  Periodic.create config = Raise ConfigurationError.
Proof.
  intros Hunit Hkw.
  unfold Periodic.create, config_item, float, timedelta_kw. unfold_bind.
  rewrite Hunit, Hkw.
  destruct (config !! "value") as [value|]; [|done].
  by destruct (float_of_string value).
Qed.

(** C8 (amended).  Once constructed, [Periodic.check] returns the
    reference time moved by the configured delta, in the time zone of the
    reference time, whenever that sum is within the range of [datetime], and
    raises [OverflowError] when it is not.  A unit that is no keyword of
    [timedelta] makes [create] raise [ConfigurationError], and a check that
    was built got its delta from a keyword of [timedelta]. *)
Theorem Periodic_check_adds_delta_in_range :
  (forall self timestamp,
      datetime_in_range (wall timestamp + Periodic._delta self) = true ->
      Periodic.check self timestamp
      = Return (Some {| wall := wall timestamp + Periodic._delta self;
                        tz := tz timestamp |}))
  /\ (forall self timestamp,
      datetime_in_range (wall timestamp + Periodic._delta self) = false ->
      Periodic.check self timestamp = Raise OverflowError)
  /\ (forall config unit,
      config !! "unit" = Some unit ->
      assoc unit timedelta_keywords = None ->
      Periodic.create config = Raise ConfigurationError)
  /\ (forall config self,
      Periodic.create config = Return self ->
      exists unit value x k,
        config !! "unit" = Some unit /\ config !! "value" = Some value
        /\ float_of_string value = Some x
        /\ assoc unit timedelta_keywords = Some k
        /\ timedelta_micros k x = Return (Periodic._delta self)).
Proof.
  split; [|split; [|split]].
  - intros self timestamp Hrange. unfold Periodic.check, datetime_add.
    by rewrite Hrange.
  - intros self timestamp Hrange. unfold Periodic.check, datetime_add.
    by rewrite Hrange.
  - apply Periodic_create_unsupported_unit.
  - apply Periodic_create_built.
Qed.

End PeriodicTheorems.

(** C8 (the claim as stated fails).  A check built from [unit = days] and
    [value = 3000000] raises [OverflowError] at the reference time
    2026-01-01T00:00:00 UTC: the sum is past the year 9999. *)
Lemma Periodic_check_can_overflow :
  Periodic.create (N := ExactNumerics)
    (<["unit" := "days"]> (<["value" := "3000000"]> ∅))
  = Return {| Periodic._delta := 259200000000000000 |}
  /\ Periodic.check {| Periodic._delta := 259200000000000000 |}
                    (utc_instant 1767225600000000)
     = Raise OverflowError.
Proof. split; vm_compute; reflexivity. Qed.

Lemma Periodic_check_witness :
  let T := utc_instant 1767225600000000 in
  let config := <["unit" := "minutes"]> (<["value" := "30"]> (∅ : gmap string string)) in
  Periodic.create (N := ExactNumerics) config
  = Return {| Periodic._delta := 1800000000 |}
  /\ Periodic.check {| Periodic._delta := 1800000000 |} T
     = Return (Some (utc_instant (1767225600000000 + 1800000000)))
  /\ Periodic.check {| Periodic._delta := 259200000000000000 |} T
     = Raise OverflowError
  /\ Periodic.create (N := ExactNumerics) (<["unit" := "fortnights"]> config)
     = Raise ConfigurationError.
Proof.
  intros T config.
  pose proof (@Periodic_check_adds_delta_in_range ExactNumerics)
    as (Hin & Hout & Hunit & _).
  split; [vm_compute; reflexivity|]. split; [|split].
  - apply (Hin {| Periodic._delta := 1800000000 |} T). reflexivity.
  - apply (Hout {| Periodic._delta := 259200000000000000 |} T). reflexivity.
  - apply (Hunit (<["unit" := "fortnights"]> config) "fortnights"); reflexivity.
Defined.

(** ** wakeup.py: XPath and XPathDelta *)

Lemma min_loop_first_failure {A : Type} (convert : A -> outcome datetime)
    (zone : option tzinfo) (before : list A) (values : list datetime)
    (m : A) (after : list A) (e : exn) :
  Forall2 (fun m t => convert m = Return t) before values ->
  Forall (fun t => tz t = zone) values ->
  convert m = Raise e ->
  forall best, tz best = zone ->
  min_loop convert best (before ++ m :: after)%list = Raise e.
Proof.
  intros Hconv. induction Hconv as [|m0 t ms ts Hm0 _ IH];
    intros Hzone Hm best Hbest; cbn [app min_loop]; unfold_bind.
  - by rewrite Hm.
  - apply Forall_cons in Hzone as [Ht Hzone].
    rewrite Hm0, datetime_lt_same_tz by congruence.
    apply IH; [done | done |]. by destruct (wall t <? wall best).
Qed.

Lemma min_of_first_failure {A : Type} (convert : A -> outcome datetime)
    (zone : option tzinfo) (before : list A) (values : list datetime)
    (m : A) (after : list A) (e : exn) :
  Forall2 (fun m t => convert m = Return t) before values ->
  Forall (fun t => tz t = zone) values ->
  convert m = Raise e ->
  min_of convert (before ++ m :: after)%list = Raise e.
Proof.
  intros Hconv Hzone Hm. destruct Hconv as [|m0 t ms ts Hm0 Hrest];
    cbn [app min_of]; unfold_bind.
  - by rewrite Hm.
  - apply Forall_cons in Hzone as [Ht Hzone]. rewrite Hm0.
    by apply (min_loop_first_failure convert zone ms ts m after e).
Qed.

Section XPathTheorems.
Context {N : PyNumerics}.

Lemma XPathDelta_convert_result_tz (self : XPathDelta.t) (m : xpath_result)
    (timestamp t : datetime) :
  XPathDelta.convert_result self m timestamp = Return t -> tz t = tz timestamp.
Proof.
  unfold XPathDelta.convert_result. unfold_bind.
  destruct (float_of_result m) as [x|]; [|done].
  destruct (timedelta_kw _ x) as [d|]; [|done].
  intros H. by apply datetime_add_tz in H as [-> _].
Qed.

Lemma XPath_convert_result_is_utc (m : xpath_result) (timestamp t : datetime) :
  XPath.convert_result m timestamp = Return t -> tz t = Some utc.
Proof.
  unfold XPath.convert_result. unfold_bind.
  destruct (float_of_result m) as [x|]; [|done].
  apply fromtimestamp_utc_is_utc.
Qed.

Lemma XPathDelta_create_unsupported_unit (config : gmap string string)
    (unit : string) :
  config !! "unit" = Some unit -> unit ∉ XPathDelta.UNITS ->
  XPathDelta.create config (Return tt) = Raise ConfigurationError.
Proof.
  intros Hunit Hout. apply str_in_not_elem_of in Hout.
  unfold XPathDelta.create, XPathDelta.__init__, LogindSessionsIdle.config_get.
  unfold_bind. rewrite Hunit. cbn [default from_option id]. by rewrite Hout.
Qed.

(** C6 (amended).  [XPathDelta.check] at the reference time [timestamp].
    A match that is a string reading as the number [x] converts to the
    reference time moved by [x] of the unit of the check.  When each of one
    or more matches converts, the result is one of the converted instants
    and no later than any of them.  The first match that does not convert
    decides the outcome, whatever follows it: a [TypeError] or a
    [ValueError] of its conversion leaves as [TemporaryCheckError], any
    other exception leaves as it is.  No match gives nothing.  [create]
    builds the check with the unit of the [unit] option when it is one of
    [UNITS], with minutes when there is no such option, and raises
    [ConfigurationError] for a unit outside [UNITS]. *)
Theorem XPathDelta_check_earliest_offset (self : XPathDelta.t)
    (timestamp : datetime) :
  (forall s x d,
      float_of_string s = Some x ->
      timedelta_kw (XPathDelta._unit self) x = Return d ->
      datetime_in_range (wall timestamp + d) = true ->
      XPathDelta.convert_result self (XText s) timestamp
      = Return {| wall := wall timestamp + d; tz := tz timestamp |})
  /\ (forall matches instants,
      matches <> [] ->
      Forall2 (fun m t => XPathDelta.convert_result self m timestamp = Return t)
              matches instants ->
      exists earliest,
        XPathDelta.check self (Return matches) timestamp = Return (Some earliest)
        /\ earliest ∈ instants
        /\ forall t, t ∈ instants -> wall earliest <= wall t)
  /\ XPathDelta.check self (Return []) timestamp = Return None
  /\ (forall config,
      config !! "unit" = None ->
      XPathDelta.create config (Return tt)
      = Return {| XPathDelta._unit := "minutes" |})
  /\ (forall config unit,
      config !! "unit" = Some unit -> unit ∉ XPathDelta.UNITS ->
      XPathDelta.create config (Return tt) = Raise ConfigurationError)
  /\ (forall config unit,
      config !! "unit" = Some unit -> unit ∈ XPathDelta.UNITS ->
      XPathDelta.create config (Return tt)
      = Return {| XPathDelta._unit := unit |})
  /\ (forall before instants m after e,
      Forall2 (fun m' t => XPathDelta.convert_result self m' timestamp = Return t)
              before instants ->
      XPathDelta.convert_result self m timestamp = Raise e ->
      XPathDelta.check self (Return (before ++ m :: after)%list) timestamp
      = Raise (if is_TypeError e || is_ValueError e
               then TemporaryCheckError else e)).
Proof.
  split; [|split; [|split; [|split; [|split; [|split]]]]].
  - intros s x d Hx Hd Hrange.
    unfold XPathDelta.convert_result, float_of_result, float, datetime_add.
    unfold_bind. by rewrite Hx, Hd, Hrange.
  - intros matches instants Hne Hconv.
    destruct (min_of_least (fun m => XPathDelta.convert_result self m timestamp)
                (tz timestamp) matches instants Hne Hconv)
      as (r & Hr & Hin & Hmin).
    { clear Hne. induction Hconv as [|m t ms ts Hm _ IH]; constructor; [|done].
      by apply XPathDelta_convert_result_tz in Hm. }
    exists r. split; [|done].
    unfold XPathDelta.check, XPath.check_with. unfold_bind.
    destruct matches as [|m ms]; [done|]. by rewrite Hr.
  - reflexivity.
  - intros config Hunit.
    unfold XPathDelta.create, LogindSessionsIdle.config_get. unfold_bind.
    by rewrite Hunit.
  - apply XPathDelta_create_unsupported_unit.
  - intros config unit Hunit Hin. apply str_in_elem_of in Hin.
    unfold XPathDelta.create, XPathDelta.__init__, LogindSessionsIdle.config_get.
    unfold_bind. rewrite Hunit. cbn [default from_option id]. by rewrite Hin.
  - intros before instants m after e Hconv Hm.
    assert (Hzone : Forall (fun t => tz t = tz timestamp) instants).
    { clear Hm. induction Hconv as [|m0 t ms ts Hm0 _ IH]; constructor; [|done].
      by apply XPathDelta_convert_result_tz in Hm0. }
    unfold XPathDelta.check, XPath.check_with. unfold_bind.
    rewrite (min_of_first_failure
               (fun m' => XPathDelta.convert_result self m' timestamp)
               (tz timestamp) before instants m after e Hconv Hzone Hm).
    destruct (before ++ m :: after)%list eqn:Hlist; [by destruct before|].
    cbn [try_except dispatch raise_from].
    destruct (is_TypeError e); [done|]. by destruct (is_ValueError e).
Qed.

End XPathTheorems.

Lemma XPathDelta_check_witness :
  let T := utc_instant 1767225600000000 in
  let self := {| XPathDelta._unit := "minutes" |} in
  let hours := {| XPathDelta._unit := "hours" |} in
  (exists earliest,
      XPathDelta.check (N := ExactNumerics) self
        (Return [XText "10"; XText "20"]) T = Return (Some earliest)
      /\ earliest ∈ [utc_instant 1767226200000000; utc_instant 1767226800000000]
      /\ forall t, t ∈ [utc_instant 1767226200000000; utc_instant 1767226800000000] ->
                   wall earliest <= wall t)
  /\ XPathDelta.check (N := ExactNumerics) self
       (Return [XText "10"; XText "20"]) T
     = Return (Some (utc_instant 1767226200000000))
  /\ XPathDelta.convert_result (N := ExactNumerics) self (XText "10") T
     = Return (utc_instant (1767225600000000 + 600000000))
  /\ XPathDelta.create ∅ (Return tt) = Return self
  /\ XPathDelta.create (<["unit" := "fortnights"]> ∅) (Return tt)
     = Raise ConfigurationError
  /\ XPathDelta.create (<["unit" := "hours"]> ∅) (Return tt) = Return hours
  /\ XPathDelta.convert_result (N := ExactNumerics) hours (XText "10") T
     = Return (utc_instant (1767225600000000 + 36000000000))
  /\ XPathDelta.check (N := ExactNumerics) self
       (Return [XText "10"; XText "soon"; XText "20"]) T
     = Raise TemporaryCheckError
  /\ XPathDelta.check (N := ExactNumerics) self
       (Return [XText "10"; XText "1e10"]) T
     = Raise OverflowError.
Proof.
  intros T self hours.
  pose proof (@XPathDelta_check_earliest_offset ExactNumerics self T)
    as (Hconv & Hmin & _ & Hdefault & Hunit & Hstored & Hfails).
  pose proof (@XPathDelta_check_earliest_offset ExactNumerics hours T)
    as (Hhours & _).
  split; [|split; [|split; [|split; [|split; [|split; [|split; [|split]]]]]]].
  - apply (Hmin [XText "10"; XText "20"]); [done|].
    constructor; [vm_compute; reflexivity|].
    constructor; [vm_compute; reflexivity | constructor].
  - vm_compute. reflexivity.
  - apply (Hconv "10" (Exact.Finite 10 1) 600000000); reflexivity.
  - apply (Hdefault ∅). reflexivity.
  - apply (Hunit (<["unit" := "fortnights"]> ∅) "fortnights"); [reflexivity|].
    apply str_in_not_elem_of. reflexivity.
  - apply (Hstored (<["unit" := "hours"]> ∅) "hours"); [reflexivity|].
    apply str_in_elem_of. reflexivity.
  - apply (Hhours "10" (Exact.Finite 10 1) 36000000000); reflexivity.
  - apply (Hfails [XText "10"] [utc_instant 1767226200000000] (XText "soon")
             [XText "20"] ValueError).
    + constructor; [vm_compute; reflexivity | constructor].
    + vm_compute. reflexivity.
  - apply (Hfails [XText "10"] [utc_instant 1767226200000000] (XText "1e10")
             [] OverflowError).
    + constructor; [vm_compute; reflexivity | constructor].
    + vm_compute. reflexivity.
Defined.

(** C6, the claim as written fails: not every sequence of one or more
    matched strings gives the earliest offset.  With the unit minutes, the
    matches 10 and 1e10 both read as numbers, the second offset leads
    beyond the last datetime, and the check raises OverflowError, which it
    does not catch, instead of returning the reference time plus ten
    minutes. *)
Lemma XPathDelta_check_can_overflow :
  XPathDelta.check (N := ExactNumerics) {| XPathDelta._unit := "minutes" |}
    (Return [XText "10"; XText "1e10"]) (utc_instant 1767225600000000)
  = Raise OverflowError
  /\ XPathDelta.convert_result (N := ExactNumerics)
       {| XPathDelta._unit := "minutes" |} (XText "10")
       (utc_instant 1767225600000000)
     = Return (utc_instant 1767226200000000)
  /\ float_of_string (PyNumerics := ExactNumerics) "1e10"
     = Some (Exact.Finite 10000000000 1).
Proof. vm_compute. auto. Qed.

(** ** All wakeup checks: time zones and the reference time *)

Section WakeupTheorems.
Context {N : PyNumerics}.

Lemma File_check_is_utc (read : outcome string) (timestamp r : datetime) :
  File.check read timestamp = Return (Some r) -> tz r = Some utc.
Proof.
  unfold File.check, first_item, float. unfold_bind.
  destruct read as [text|e]; simpl.
  - destruct (Str.str_splitlines text) as [|line rest]; simpl; [done|].
    destruct (float_of_string (Str.str_strip line)) as [x|]; simpl; [|done].
    destruct (fromtimestamp_utc x) as [t|e] eqn:Ht; simpl.
    + intros [= <-]. by apply fromtimestamp_utc_is_utc in Ht.
    + destruct (is_FileNotFoundError e); [done|]. by destruct (_ || _).
  - destruct (is_FileNotFoundError e); [done|]. by destruct (_ || _).
Qed.

Lemma Command_check_is_utc (ran : outcome string) (timestamp r : datetime) :
  Command.check ran timestamp = Return (Some r) -> tz r = Some utc.
Proof.
  unfold Command.check, first_item, float. unfold_bind.
  destruct ran as [stdout|e]; simpl.
  - destruct (Str.bytes_splitlines stdout) as [|line rest]; simpl; [done|].
    destruct (Str.nonempty (Str.bytes_strip line)); simpl; [|done].
    destruct (float_of_string (Str.bytes_strip line)) as [x|]; simpl; [|done].
    destruct (fromtimestamp_utc x) as [t|e] eqn:Ht; simpl.
    + intros [= <-]. by apply fromtimestamp_utc_is_utc in Ht.
    + destruct (is_CalledProcessError e) eqn:He.
      * destruct e; try discriminate He. by destruct command_not_found.
      * by destruct (is_ValueError e).
  - destruct (is_CalledProcessError e) eqn:He.
    + destruct e; try discriminate He. by destruct command_not_found.
    + by destruct (is_ValueError e).
Qed.

Lemma SystemdTimer_check_is_utc (self : SystemdTimer.t) (b : bus) (now : clock)
    (timestamp r : datetime) :
  SystemdTimer.check self b now timestamp = Return (Some r) -> tz r = Some utc.
Proof.
  unfold SystemdTimer.check. unfold_bind.
  destruct (next_timer_executions b now) as [executions|] eqn:Hexec; [|done].
  pose proof (next_timer_executions_all_utc b now executions Hexec) as Hutc.
  assert (Hzone : forall t, t ∈ SystemdTimer.matching_executions self executions ->
                            tz t = Some utc).
  { intros t Ht. apply elem_of_matching_executions in Ht as (name & Hlookup & _).
    by apply (Hutc name). }
  unfold py_min.
  destruct (SystemdTimer.matching_executions self executions) as [|first rest]; [done|].
  destruct (min_loop Return first rest) as [t|e] eqn:Hmin; simpl.
  - intros [= <-].
    apply (min_loop_among Return (fun t => tz t = Some utc) rest) with first.
    + intros m t' Hin [= <-]. apply Hzone. by right.
    + apply Hzone. by left.
    + done.
  - by destruct (is_ValueError e).
Qed.

Lemma XPath_check_with_among
    (convert : xpath_result -> datetime -> outcome datetime)
    (P : datetime -> Prop) (evaluated : outcome (list xpath_result))
    (timestamp r : datetime) :
  (forall m t, convert m timestamp = Return t -> P t) ->
  XPath.check_with convert evaluated timestamp = Return (Some r) -> P r.
Proof.
  intros Hconv. unfold XPath.check_with. unfold_bind.
  destruct evaluated as [matches|]; [|done].
  destruct matches as [|m ms]; [done|].
  destruct (min_of _ (m :: ms)) as [t|e] eqn:Hmin.
  - simpl. intros [= <-].
    apply (min_of_among _ P (m :: ms) t) in Hmin; [done|].
    intros m' t' _. apply Hconv.
  - simpl. destruct (is_TypeError e); [done|]. by destruct (is_ValueError e).
Qed.

(** C9.  Every instant that a wakeup check returns is timezone-aware.
    The file, command, timer and absolute XPath checks return an instant in
    UTC whatever the reference time is.  The periodic and the relative XPath
    check return an instant in the time zone of the reference time, which the
    contract of [check] has timezone-aware. *)
Theorem wakeup_results_are_aware :
  (forall read timestamp r,
      File.check read timestamp = Return (Some r) -> tz r = Some utc)
  /\ (forall ran timestamp r,
      Command.check ran timestamp = Return (Some r) -> tz r = Some utc)
  /\ (forall self b now timestamp r,
      SystemdTimer.check self b now timestamp = Return (Some r) ->
      tz r = Some utc)
  /\ (forall evaluated timestamp r,
      XPath.check evaluated timestamp = Return (Some r) -> tz r = Some utc)
  /\ (forall self timestamp r,
      aware timestamp ->
      Periodic.check self timestamp = Return (Some r) ->
      aware r /\ tz r = tz timestamp)
  /\ (forall self evaluated timestamp r,
      aware timestamp ->
      XPathDelta.check self evaluated timestamp = Return (Some r) ->
      aware r /\ tz r = tz timestamp).
Proof.
  split; [|split; [|split; [|split; [|split]]]].
  - apply File_check_is_utc.
  - apply Command_check_is_utc.
  - apply SystemdTimer_check_is_utc.
  - intros evaluated timestamp r.
    apply (XPath_check_with_among XPath.convert_result (fun t => tz t = Some utc)).
    intros m t. apply XPath_convert_result_is_utc.
  - intros self timestamp r Haware. unfold Periodic.check. unfold_bind.
    destruct (datetime_add timestamp (Periodic._delta self)) as [t|] eqn:Ht; [|done].
    intros [= <-]. apply datetime_add_tz in Ht as [Htz _].
    split; [unfold aware; by rewrite Htz | done].
  - intros self evaluated timestamp r Haware Hcheck.
    assert (tz r = tz timestamp) as Htz.
    { revert Hcheck.
      apply (XPath_check_with_among (XPathDelta.convert_result self)
               (fun t => tz t = tz timestamp)).
      intros m t. apply XPathDelta_convert_result_tz. }
    split; [unfold aware; by rewrite Htz | done].
Qed.

(** C10.  The file, command, timer and absolute XPath checks give the same
    outcome, result or exception, at any two reference times when they read
    the same from outside. *)
Theorem absolute_checks_ignore_reference_time (t1 t2 : datetime) :
  (forall read, File.check read t1 = File.check read t2)
  /\ (forall ran, Command.check ran t1 = Command.check ran t2)
  /\ (forall self b now,
      SystemdTimer.check self b now t1 = SystemdTimer.check self b now t2)
  /\ (forall evaluated, XPath.check evaluated t1 = XPath.check evaluated t2).
Proof.
  split; [|split; [|split]].
  - intros read. unfold File.check. reflexivity.
  - intros ran. unfold Command.check. reflexivity.
  - intros self b now. unfold SystemdTimer.check. reflexivity.
  - intros evaluated. unfold XPath.check, XPath.check_with.
    destruct evaluated as [matches|e]; [|reflexivity].
    unfold_bind. f_equal.
Qed.

End WakeupTheorems.

(** The periodic and the relative XPath check do read the reference time. *)
Lemma relative_checks_follow_reference_time :
  let t1 := utc_instant 1767225600000000 in
  let t2 := utc_instant 1767225601000000 in
  Periodic.check {| Periodic._delta := 1800000000 |} t1
  <> Periodic.check {| Periodic._delta := 1800000000 |} t2
  /\ XPathDelta.check (N := ExactNumerics) {| XPathDelta._unit := "minutes" |}
       (Return [XText "10"]) t1
     <> XPathDelta.check (N := ExactNumerics) {| XPathDelta._unit := "minutes" |}
          (Return [XText "10"]) t2.
Proof. split; vm_compute; discriminate. Qed.

Lemma wakeup_results_are_aware_witness :
  let T := utc_instant 1767225600000000 in
  tz (utc_instant 1700000000000000) = Some utc
  /\ tz (utc_instant 1234000000) = Some utc
  /\ tz (utc_instant 1767225690000000) = Some utc
  /\ tz (utc_instant 1600000000000000) = Some utc
  /\ (aware (utc_instant 1767227400000000)
      /\ tz (utc_instant 1767227400000000) = tz T)
  /\ (aware (utc_instant 1767226200000000)
      /\ tz (utc_instant 1767226200000000) = tz T).
Proof.
  intros T.
  pose proof (@wakeup_results_are_aware ExactNumerics)
    as (Hfile & Hcommand & Htimer & Hxpath & Hperiodic & Hdelta).
  split; [|split; [|split; [|split; [|split]]]].
  - apply (Hfile (Return "1700000000") T). vm_compute. reflexivity.
  - apply (Hcommand (Return "1234") T). vm_compute. reflexivity.
  - apply (Htimer {| SystemdTimer._match := Re.compile (Re.literal "cron") |}
             example_bus example_clock T).
    vm_compute. reflexivity.
  - apply (Hxpath (Return [XText "1700000000"; XText "1600000000"]) T).
    vm_compute. reflexivity.
  - apply (Hperiodic {| Periodic._delta := 1800000000 |} T).
    + by eexists.
    + vm_compute. reflexivity.
  - apply (Hdelta {| XPathDelta._unit := "minutes" |}
             (Return [XText "10"; XText "20"]) T).
    + by eexists.
    + vm_compute. reflexivity.
Defined.

(** * Further properties of the code *)

(** ** kodi.py: every reply *)

Lemma subscript_raises (v : json) (key : string) (e : exn) :
  subscript v key = Raise e -> e = KeyError \/ e = TypeError.
Proof.
  destruct v; simpl; try (intros [= <-]; by right).
  destruct (assoc key members); [done | intros [= <-]; by left].
Qed.

(** X1.  Without [suspend_while_paused], whatever the body of the reply,
    [Kodi.check] raises [TemporaryCheckError] or returns, and it returns
    only for a JSON object with a [result], busy exactly when that result
    is true as a condition.  No other exception leaves the check. *)
Theorem Kodi_check_default_mode_outcome (r : response) :
  Kodi.check {| Kodi.suspend_while_paused := false |} (Return r)
  = Raise TemporaryCheckError
  \/ exists v res,
      r = Json v /\ subscript v "result" = Return res
      /\ Kodi.check {| Kodi.suspend_while_paused := false |} (Return r)
         = Return (if truthy res then Some "Kodi currently playing" else None).
Proof.
  destruct r as [|v]; [by left|].
  unfold Kodi.check, Kodi._safe_request_result. unfold_bind.
  cbn [response_json].
  destruct (subscript v "result") as [res|e] eqn:Hres.
  - right. exists v, res. split; [done|]. split; [exact Hres | reflexivity].
  - left. apply subscript_raises in Hres as [-> | ->]; reflexivity.
Qed.

(** X2.  With [suspend_while_paused], a reply with a [result] that is an
    object gives busy exactly when its member [Player.Playing] is true as a
    condition, an absent member counting as false; a [result] that is no
    object lets [AttributeError] leave the check; every other body raises
    [TemporaryCheckError]. *)
Theorem Kodi_check_paused_mode_outcome (r : response) :
  Kodi.check {| Kodi.suspend_while_paused := true |} (Return r)
  = Raise TemporaryCheckError
  \/ exists v res,
      r = Json v /\ subscript v "result" = Return res
      /\ match res with
         | JObj members =>
             Kodi.check {| Kodi.suspend_while_paused := true |} (Return r)
             = Return (if truthy (default JNull (assoc "Player.Playing" members))
                       then Some "Kodi actively playing media" else None)
         | _ =>
             Kodi.check {| Kodi.suspend_while_paused := true |} (Return r)
             = Raise AttributeError
         end.
Proof.
  destruct r as [|v]; [by left|].
  unfold Kodi.check, Kodi._safe_request_result. unfold_bind.
  cbn [response_json].
  destruct (subscript v "result") as [res|e] eqn:Hres.
  - right. exists v, res. split; [done|]. split; [exact Hres|].
    destruct res; reflexivity.
  - left. apply subscript_raises in Hres as [-> | ->]; reflexivity.
Qed.

(** X3.  Whatever the body of the reply, [KodiIdleTime.check] raises
    [TemporaryCheckError] or returns, and it returns only when the reply
    holds the queried boolean under [result]: busy exactly when that
    boolean is false as a condition. *)
Theorem KodiIdleTime_check_outcome (self : KodiIdleTime.t) (r : response) :
  KodiIdleTime.check self (Return r) = Raise TemporaryCheckError
  \/ exists v res idle,
      r = Json v /\ subscript v "result" = Return res
      /\ subscript res (KodiIdleTime.idle_key self) = Return idle
      /\ KodiIdleTime.check self (Return r)
         = Return (if truthy idle then None
                   else Some "Someone interacts with Kodi").
Proof.
  destruct r as [|v]; [by left|].
  unfold KodiIdleTime.check. unfold_bind. cbn [response_json].
  destruct (subscript v "result") as [res|e] eqn:Hres.
  - destruct (subscript res (KodiIdleTime.idle_key self)) as [idle|e] eqn:Hidle.
    + right. exists v, res, idle.
      split; [done|]. split; [exact Hres|]. split; [exact Hidle|].
      by destruct (truthy idle).
    + left. apply subscript_raises in Hidle as [-> | ->]; reflexivity.
  - left. apply subscript_raises in Hres as [-> | ->]; reflexivity.
Qed.

(** ** kodi.py: construction *)

(** X4.  After [_add_default_kodi_url] the configuration has a [url]; a
    [url] that was set and every other option are as before, and a second
    call changes nothing. *)
Theorem add_default_kodi_url_keeps_options (config : gmap string string) :
  is_Some (_add_default_kodi_url config !! "url")
  /\ (forall url, config !! "url" = Some url ->
                  _add_default_kodi_url config = config)
  /\ (forall key, key <> "url" ->
                  _add_default_kodi_url config !! key = config !! key)
  /\ _add_default_kodi_url (_add_default_kodi_url config)
     = _add_default_kodi_url config.
Proof.
  unfold _add_default_kodi_url.
  destruct (config !! "url") as [url|] eqn:Hurl.
  - rewrite Hurl. split; [by eexists|]. split; [done|]. split; done.
  - rewrite lookup_insert_eq. split; [by eexists|]. split; [done|].
    split; [|done]. intros key Hkey. by rewrite lookup_insert_ne.
Qed.

Lemma add_default_kodi_url_other (config : gmap string string) (key : string) :
  key <> "url" -> _add_default_kodi_url config !! key = config !! key.
Proof. intros Hkey. by apply add_default_kodi_url_keeps_options. Qed.

Lemma config_getboolean_raises (config : gmap string string) (key : string)
    (fallback : bool) (e : exn) :
  config_getboolean config key fallback = Raise e -> e = ValueError.
Proof.
  unfold config_getboolean. destruct (config !! key) as [value|]; [|done].
  destruct (assoc (Exact.lowercase value) BOOLEAN_STATES); [done|].
  by intros [= <-].
Qed.

Lemma config_getboolean_true (config : gmap string string) (key : string) :
  config_getboolean config key false = Return true
  <-> exists value, config !! key = Some value
                    /\ assoc (Exact.lowercase value) BOOLEAN_STATES = Some true.
Proof.
  unfold config_getboolean. destruct (config !! key) as [value|].
  - destruct (assoc (Exact.lowercase value) BOOLEAN_STATES) as [b|] eqn:Hb.
    + split.
      * intros [= ->]. by exists value.
      * intros (value' & [= <-] & Hb'). congruence.
    + split; [done|]. intros (value' & [= <-] & Hb'). congruence.
  - split; [done|]. by intros (value & ? & _).
Qed.

Lemma config_getint_raises (config : gmap string string) (key : string)
    (fallback : Z) (e : exn) :
  config_getint config key fallback = Raise e -> e = ValueError.
Proof.
  unfold config_getint. destruct (config !! key) as [value|]; [|done].
  destruct (int_of_string value); [done|]. by intros [= <-].
Qed.

Section KodiConstructionFacts.
Context {Args : Type}.
Variable net : gmap string string -> outcome Args.

(** X5.  [Kodi.create] never lets a [ValueError] out: one raised while
    the options are read leaves as [ConfigurationError].  The check built
    has [suspend_while_paused] set exactly when the option is present and
    names, in any letter case, one of 1, yes, true, on; a value that names
    no state is a [ConfigurationError]; and creating from a configuration
    is the same as creating from it with the default URL filled in. *)
Theorem Kodi_create_outcome (config : gmap string string) :
  (forall e, Kodi_create net config = Raise e -> is_ValueError e = false)
  /\ (forall self,
      Kodi_create net config = Return self ->
      (Kodi.suspend_while_paused self = true
       <-> exists value,
            config !! "suspend_while_paused" = Some value
            /\ assoc (Exact.lowercase value) BOOLEAN_STATES = Some true))
  /\ (forall args value,
      net (_add_default_kodi_url config) = Return args ->
      config !! "suspend_while_paused" = Some value ->
      assoc (Exact.lowercase value) BOOLEAN_STATES = None ->
      Kodi_create net config = Raise ConfigurationError)
  /\ Kodi_create net (_add_default_kodi_url config) = Kodi_create net config.
Proof.
  assert (Hflag : forall fallback,
             config_getboolean (_add_default_kodi_url config)
                               "suspend_while_paused" fallback
             = config_getboolean config "suspend_while_paused" fallback).
  { intros fallback. unfold config_getboolean.
    by rewrite add_default_kodi_url_other. }
  split; [|split; [|split]].
  - intros e. unfold Kodi_create, Kodi_collect_init_args.
    unfold_bind. rewrite Hflag.
    destruct (net (_add_default_kodi_url config)) as [args|e0].
    + destruct (config_getboolean config "suspend_while_paused" false)
        as [flag|e1] eqn:Hget; [done|].
      apply config_getboolean_raises in Hget as ->. by intros [= <-].
    + cbn [try_except dispatch raise_from].
      destruct (is_ValueError e0) eqn:He0; by intros [= <-].
  - intros self. unfold Kodi_create, Kodi_collect_init_args.
    unfold_bind. rewrite Hflag.
    destruct (net (_add_default_kodi_url config)) as [args|e0].
    + destruct (config_getboolean config "suspend_while_paused" false)
        as [flag|e1] eqn:Hget.
      * intros [= <-]. cbn [Kodi.suspend_while_paused].
        rewrite <- config_getboolean_true, Hget.
        split; [by intros -> | by intros [= ->]].
      * apply config_getboolean_raises in Hget as ->. done.
    + cbn [try_except dispatch raise_from]. by destruct (is_ValueError e0).
  - intros args value Hnet Hvalue Hstate.
    unfold Kodi_create, Kodi_collect_init_args.
    unfold_bind. rewrite Hflag, Hnet.
    unfold config_getboolean. by rewrite Hvalue, Hstate.
  - unfold Kodi_create, Kodi_collect_init_args.
    by rewrite (proj2 (proj2 (proj2 (add_default_kodi_url_keeps_options config)))).
Qed.

(** X6.  [KodiIdleTime.create] never lets a [ValueError] out.  The check
    built has the idle time 120 without the option [idle_time] and
    otherwise the integer that the value reads as; a value that is no
    integer is a [ConfigurationError].  The key that the check built
    without the option looks up is the one for 120 seconds. *)
Theorem KodiIdleTime_create_outcome (config : gmap string string) :
  (forall e, KodiIdleTime_create net config = Raise e -> is_ValueError e = false)
  /\ (forall self,
      KodiIdleTime_create net config = Return self ->
      match config !! "idle_time" with
      | None =>
          KodiIdleTime.idle_time self = 120
          /\ KodiIdleTime.idle_key self = "System.IdleTime(120)"
      | Some value => int_of_string value = Some (KodiIdleTime.idle_time self)
      end)
  /\ (forall args value,
      net (_add_default_kodi_url config) = Return args ->
      config !! "idle_time" = Some value ->
      int_of_string value = None ->
      KodiIdleTime_create net config = Raise ConfigurationError).
Proof.
  assert (Hidle : forall fallback,
             config_getint (_add_default_kodi_url config) "idle_time" fallback
             = config_getint config "idle_time" fallback).
  { intros fallback. unfold config_getint.
    by rewrite add_default_kodi_url_other. }
  split; [|split].
  - intros e. unfold KodiIdleTime_create, KodiIdleTime_collect_init_args.
    unfold_bind. rewrite Hidle.
    destruct (net (_add_default_kodi_url config)) as [args|e0].
    + destruct (config_getint config "idle_time" 120) as [n|e1] eqn:Hget; [done|].
      apply config_getint_raises in Hget as ->. by intros [= <-].
    + cbn [try_except dispatch raise_from].
      destruct (is_ValueError e0) eqn:He0; by intros [= <-].
  - intros self. unfold KodiIdleTime_create, KodiIdleTime_collect_init_args.
    unfold_bind. rewrite Hidle.
    destruct (net (_add_default_kodi_url config)) as [args|e0].
    + unfold config_getint.
      destruct (config !! "idle_time") as [value|].
      * destruct (int_of_string value) as [n|]; [by intros [= <-] | done].
      * by intros [= <-].
    + cbn [try_except dispatch raise_from]. by destruct (is_ValueError e0).
  - intros args value Hnet Hvalue Hint.
    unfold KodiIdleTime_create, KodiIdleTime_collect_init_args.
    unfold_bind. rewrite Hidle, Hnet.
    unfold config_getint. by rewrite Hvalue, Hint.
Qed.

End KodiConstructionFacts.


(** ** systemd.py: the login sessions *)

Lemma scan_none_iff (self : LogindSessionsIdle.t)
    (sessions : list (string * LogindSessionsIdle.properties)) :
  LogindSessionsIdle.scan self sessions = None
  <-> Forall (passed_over self) sessions.
Proof.
  induction sessions as [|[sid props] rest IH].
  - split; [constructor | done].
  - split.
    + intros Hscan.
      assert (Hp : passed_over self (sid, props)).
      { intros Hc. cbn [snd] in *.
        destruct (LogindSessionsIdle.IdleHint props) eqn:Hidle; [done|].
        by rewrite (scan_busy self sid props rest Hc Hidle) in Hscan. }
      constructor; [done|]. apply IH. by rewrite scan_passed_over in Hscan.
    + intros Hall. apply Forall_cons in Hall as [Hp Hrest].
      rewrite scan_passed_over by done. by apply IH.
Qed.

(** X8.  Whether the login sessions make the host busy does not depend on
    the order in which the bus lists them: [check] returns nothing for a
    list exactly when it returns nothing for any rearrangement of it. *)
Theorem LogindSessionsIdle_idle_whatever_the_order
    (self : LogindSessionsIdle.t)
    (sessions sessions' : list (string * LogindSessionsIdle.properties)) :
  sessions ≡ₚ sessions' ->
  (LogindSessionsIdle.check self (Return sessions) = Return None
   <-> LogindSessionsIdle.check self (Return sessions') = Return None).
Proof.
  intros Hperm. unfold LogindSessionsIdle.check. cbn.
  assert (Hiff : forall l, Return (LogindSessionsIdle.scan self l)
                           = Return (None : option string)
                           <-> Forall (passed_over self) l).
  { intros l. rewrite <- scan_none_iff. split; [by intros [= ->] | by intros ->]. }
  rewrite !Hiff. by rewrite Hperm.
Qed.

Lemma LogindSessionsIdle_order_witness :
  let self := LogindSessionsIdle.create ∅ in
  let idle := {| LogindSessionsIdle.SessionType := "tty";
                 LogindSessionsIdle.State := "active";
                 LogindSessionsIdle.IdleHint := true |} in
  let closing := {| LogindSessionsIdle.SessionType := "x11";
                    LogindSessionsIdle.State := "closing";
                    LogindSessionsIdle.IdleHint := false |} in
  LogindSessionsIdle.check self (Return [("1", idle); ("2", closing)]) = Return None
  <-> LogindSessionsIdle.check self (Return [("2", closing); ("1", idle)]) = Return None.
Proof.
  intros self idle closing.
  apply (LogindSessionsIdle_idle_whatever_the_order self).
  apply Permutation_swap.
Defined.

(** X9.  A reason that [check] returns names a session that the bus
    listed, whose type and state are in the configured sets and whose idle
    hint is false. *)
Theorem LogindSessionsIdle_reason_names_a_busy_session
    (self : LogindSessionsIdle.t)
    (sessions : list (string * LogindSessionsIdle.properties))
    (reason : string) :
  LogindSessionsIdle.check self (Return sessions) = Return (Some reason) ->
  exists sid props,
    (sid, props) ∈ sessions
    /\ considered self props
    /\ LogindSessionsIdle.IdleHint props = false
    /\ reason = ("Login session " ++ sid ++ " is not idle")%string.
Proof.
  unfold LogindSessionsIdle.check. cbn. intros [= Hscan].
  induction sessions as [|[sid props] rest IH]; [done|].
  simpl in Hscan.
  destruct (Str.str_in (LogindSessionsIdle.SessionType props) _) eqn:Ht;
    simpl in Hscan.
  - destruct (Str.str_in (LogindSessionsIdle.State props) _) eqn:Hs;
      simpl in Hscan.
    + destruct (LogindSessionsIdle.IdleHint props) eqn:Hidle; simpl in Hscan.
      * destruct (IH Hscan) as (sid' & props' & Hin & H).
        exists sid', props'. split; [by right | done].
      * injection Hscan as <-. exists sid, props.
        split; [by left|]. split; [|done].
        split; by apply str_in_elem_of.
    + destruct (IH Hscan) as (sid' & props' & Hin & H).
      exists sid', props'. split; [by right | done].
  - destruct (IH Hscan) as (sid' & props' & Hin & H).
    exists sid', props'. split; [by right | done].
Qed.

Lemma LogindSessionsIdle_reason_witness :
  let self := LogindSessionsIdle.create ∅ in
  let busy := {| LogindSessionsIdle.SessionType := "wayland";
                 LogindSessionsIdle.State := "online";
                 LogindSessionsIdle.IdleHint := false |} in
  exists sid props,
    (sid, props) ∈ [("7", busy)]
    /\ considered self props
    /\ LogindSessionsIdle.IdleHint props = false
    /\ "Login session 7 is not idle" = ("Login session " ++ sid ++ " is not idle")%string.
Proof.
  intros self busy.
  apply (LogindSessionsIdle_reason_names_a_busy_session self [("7", busy)]).
  reflexivity.
Defined.

(** X10.  Sessions whose type or state is outside the configured sets
    have no part in the result: [check] gives the same on the list with
    them removed. *)
Theorem LogindSessionsIdle_check_reads_filtered_sessions
    (self : LogindSessionsIdle.t)
    (sessions : list (string * LogindSessionsIdle.properties)) :
  LogindSessionsIdle.check self (Return sessions)
  = LogindSessionsIdle.check self
      (Return (List.filter (passes_filters self) sessions)).
Proof.
  unfold LogindSessionsIdle.check. cbn. f_equal.
  induction sessions as [|[sid props] rest IH]; [done|].
  cbn [List.filter]. unfold passes_filters at 1. cbn [snd].
  destruct (Str.str_in (LogindSessionsIdle.SessionType props) _) eqn:Ht.
  - destruct (Str.str_in (LogindSessionsIdle.State props) _) eqn:Hs.
    + cbn [andb LogindSessionsIdle.scan]. rewrite Ht, Hs. cbn [negb].
      by rewrite IH.
    + cbn [andb LogindSessionsIdle.scan]. rewrite Ht, Hs. by cbn [negb].
  - cbn [andb LogindSessionsIdle.scan]. rewrite Ht. by cbn [negb].
Qed.

(** ** systemd.py: the mapping of the timers *)

Section TimerMapping.
Context {N : PyNumerics}.

Lemma record_timers_entries (b : bus) (now : clock) (Q : string -> Prop)
    (timers : list unit_entry) :
  (forall u, u ∈ timers -> ~ never_elapses b u -> Q (unit_name u)) ->
  forall result reads result' reads',
    (forall name, is_Some (result !! name) -> Q name) ->
    record_timers b now (result, reads) timers = Return (result', reads') ->
    forall name, is_Some (result' !! name) -> Q name.
Proof.
  induction timers as [|timer timers IH];
    intros HQ result reads result' reads' Hresult; cbn [record_timers].
  - by intros [= <- _].
  - unfold_bind.
    destruct (record_timer b now (result, reads) timer) as [[r k]|] eqn:Hstep; [|done].
    apply IH; [intros u Hu; apply HQ; by right|].
    unfold record_timer in Hstep. unfold_bind.
    destruct (next_time now reads (GetAll b (object_path timer)))
      as [[[t|] k']|] eqn:Hnext; [| |done].
    + injection Hstep as <- _. intros name Hname.
      destruct (decide (unit_name timer = name)) as [<-|Hne].
      * apply HQ; [by left|]. by apply next_time_some_elapses in Hnext.
      * rewrite lookup_insert_ne in Hname by done. by apply Hresult.
    + by injection Hstep as <- _.
Qed.

(** X11.  Every entry of the mapping that [next_timer_executions] returns
    is for a unit that the bus listed, whose name ends in [.timer] and which
    has an elapse property that is not zero; its instant is in UTC. *)
Theorem next_timer_executions_entries (b : bus) (now : clock)
    (executions : gmap string datetime) (name : string) (t : datetime) :
  next_timer_executions b now = Return executions ->
  executions !! name = Some t ->
  Str.endswith name ".timer" = true
  /\ tz t = Some utc
  /\ exists u, u ∈ ListUnits b /\ unit_name u = name /\ ~ never_elapses b u.
Proof.
  intros Hexec Hlookup.
  pose proof (next_timer_executions_all_utc b now executions Hexec name t Hlookup)
    as Hutc.
  unfold next_timer_executions in Hexec. unfold_bind.
  destruct (record_timers b now (∅, O) (timers_of b)) as [[r k]|] eqn:Hloop; [|done].
  injection Hexec as <-.
  pose proof (record_timers_entries b now
    (fun name => Str.endswith name ".timer" = true
                 /\ exists u, u ∈ ListUnits b /\ unit_name u = name
                              /\ ~ never_elapses b u)
    (timers_of b)) as Hentries.
  destruct (Hentries) with (result := (∅ : gmap string datetime)) (reads := O)
    (result' := r) (reads' := k) (name := name) as [Hend Hunit].
  - intros u Hu Helapses. unfold timers_of in Hu.
    apply list_elem_of_In, filter_In in Hu as [Hin Hend].
    split; [done|]. exists u. split; [by apply list_elem_of_In | done].
  - intros name' [t' Ht']. by rewrite lookup_empty in Ht'.
  - done.
  - by eexists.
  - done.
Qed.

(** X12.  When the bus lists no two timers of one name and the query
    returns, a timer with a realtime property that is not zero has its entry
    in the mapping returned: under its name, the UTC instant converted from
    that property, whatever the other timers hold. *)
Theorem next_timer_executions_realtime_entry (b : bus) (now : clock)
    (executions : gmap string datetime) (u : unit_entry) (us : Z) :
  NoDup (map unit_name (timers_of b)) ->
  u ∈ timers_of b ->
  NextElapseUSecRealtime (GetAll b (object_path u)) <> 0 ->
  timestamp_micros
    (int_truediv (NextElapseUSecRealtime (GetAll b (object_path u))) 1000000)
  = Return us ->
  next_timer_executions b now = Return executions ->
  executions !! unit_name u = Some (utc_instant us).
Proof.
  intros Hnodup Hin Hrt Hus Hexec.
  unfold next_timer_executions in Hexec. unfold_bind.
  destruct (record_timers b now (∅, O) (timers_of b)) as [[r k]|] eqn:Hloop; [|done].
  injection Hexec as <-.
  by apply (record_timers_realtime_entry b now u us (timers_of b)
              Hnodup Hin Hrt Hus ∅ O r k).
Qed.

(** X13.  One timer whose realtime property does not convert to an
    instant makes the whole query fail: [next_timer_executions] raises, and
    so does [SystemdTimer.check] at every pattern and reference time, also a
    pattern that does not match the name of that timer. *)
Theorem SystemdTimer_check_fails_on_any_bad_timer (b : bus) (now : clock)
    (u : unit_entry) (e : exn) :
  u ∈ timers_of b ->
  NextElapseUSecRealtime (GetAll b (object_path u)) <> 0 ->
  timestamp_micros
    (int_truediv (NextElapseUSecRealtime (GetAll b (object_path u))) 1000000)
  = Raise e ->
  exists e',
    next_timer_executions b now = Raise e'
    /\ forall self timestamp, SystemdTimer.check self b now timestamp = Raise e'.
Proof.
  intros Hin Hrt Hraise.
  destruct (record_timers_fails b now u (timers_of b) Hin) with (state := (∅ : gmap string datetime, O))
    as [e' He'].
  { intros [result reads]. exists e.
    unfold record_timer, next_time, fromtimestamp_utc. unfold_bind.
    apply Z.eqb_neq in Hrt. by rewrite Hrt, Hraise. }
  exists e'.
  assert (Hexec : next_timer_executions b now = Raise e').
  { unfold next_timer_executions. unfold_bind. by rewrite He'. }
  split; [done|]. intros self timestamp.
  unfold SystemdTimer.check. unfold_bind. by rewrite Hexec.
Qed.

End TimerMapping.

Lemma next_timer_executions_entries_witness :
  Str.endswith "cron.timer" ".timer" = true
  /\ tz (utc_instant 1767225690000000) = Some utc
  /\ exists u, u ∈ ListUnits example_bus /\ unit_name u = "cron.timer"
               /\ ~ never_elapses example_bus u.
Proof.
  apply (@next_timer_executions_entries ExactNumerics example_bus example_clock
           example_executions "cron.timer" (utc_instant 1767225690000000)).
  - vm_compute. reflexivity.
  - reflexivity.
Defined.

Lemma next_timer_executions_realtime_entry_witness :
  example_executions !! "backup.timer" = Some (utc_instant 1700000000000000).
Proof.
  apply (@next_timer_executions_realtime_entry ExactNumerics example_bus
           example_clock example_executions
           {| unit_name := "backup.timer"; object_path := "/unit/backup" |}
           1700000000000000).
  - compute_done.
  - apply list_elem_of_In. vm_compute. auto.
  - done.
  - apply exact_timestamp_of_micros. reflexivity.
  - vm_compute. reflexivity.
Defined.

Lemma SystemdTimer_check_fails_witness :
  exists e',
    next_timer_executions (N := ExactNumerics) example_bad_bus example_clock
    = Raise e'
    /\ forall self timestamp,
        SystemdTimer.check (N := ExactNumerics) self example_bad_bus
          example_clock timestamp = Raise e'.
Proof.
  apply (@SystemdTimer_check_fails_on_any_bad_timer ExactNumerics
           example_bad_bus example_clock
           {| unit_name := "never.timer"; object_path := "/unit/never" |}
           ValueError).
  - apply list_elem_of_In. vm_compute. auto.
  - done.
  - vm_compute. reflexivity.
Defined.

(** ** wakeup.py: what File and Command read *)

Section FirstLine.
Context {N : PyNumerics}.

(** X14.  [File.check] reads the first line only: two files with the same
    first line give the same outcome, whatever follows it and whatever the
    reference time. *)
Theorem File_check_reads_first_line_only (text1 text2 line : string)
    (rest1 rest2 : list string) (t1 t2 : datetime) :
  Str.str_splitlines text1 = line :: rest1 ->
  Str.str_splitlines text2 = line :: rest2 ->
  File.check (Return text1) t1 = File.check (Return text2) t2.
Proof.
  intros H1 H2. unfold File.check. unfold_bind. by rewrite H1, H2.
Qed.

(** X15.  The exceptions that leave [File.check] are
    [TemporaryCheckError]; [IndexError], for a file that is empty; an error
    of reading that is neither a [ValueError] nor an [IOError]; and an error
    of converting the timestamp that is neither. *)
Theorem File_check_escapes (read : outcome string) (timestamp : datetime)
    (e : exn) :
  File.check read timestamp = Raise e ->
  e = TemporaryCheckError
  \/ (e = IndexError /\ exists text, read = Return text /\ Str.str_splitlines text = [])
  \/ (escapes_file_check e
      /\ (read = Raise e \/ exists x, timestamp_micros x = Raise e)).
Proof.
  unfold File.check, first_item, float, fromtimestamp_utc, escapes_file_check.
  unfold_bind. destruct read as [text|e0].
  - destruct (Str.str_splitlines text) as [|line rest] eqn:Hlines.
    + cbn. intros [= <-]. right. left. split; [done|]. by exists text.
    + cbn [try_except].
      destruct (float_of_string (Str.str_strip line)) as [x|].
      * destruct (timestamp_micros x) as [us|e0] eqn:Hus; [done|].
        cbn [try_except dispatch raise_from].
        destruct (is_FileNotFoundError e0) eqn:Hnf; [done|].
        destruct (any_of [is_ValueError; is_IOError] e0) eqn:Hcaught.
        -- intros [= <-]. by left.
        -- intros [= <-]. right. right. split; [done|]. right. by exists x.
      * cbn. intros [= <-]. by left.
  - cbn [try_except dispatch raise_from].
    destruct (is_FileNotFoundError e0) eqn:Hnf; [done|].
    destruct (any_of [is_ValueError; is_IOError] e0) eqn:Hcaught.
    + intros [= <-]. by left.
    + intros [= <-]. right. right. split; [done|]. by left.
Qed.

(** X16.  [Command.check] reads the first line of the output only. *)
Theorem Command_check_reads_first_line_only (stdout1 stdout2 line : string)
    (rest1 rest2 : list string) (t1 t2 : datetime) :
  Str.bytes_splitlines stdout1 = line :: rest1 ->
  Str.bytes_splitlines stdout2 = line :: rest2 ->
  Command.check (Return stdout1) t1 = Command.check (Return stdout2) t2.
Proof.
  intros H1 H2. unfold Command.check. unfold_bind. by rewrite H1, H2.
Qed.

(** X17.  What [Command.check] returns for a command that succeeded:
    nothing exactly when the first line of output is blank, and otherwise
    the UTC instant of the number on that line. *)
Theorem Command_check_returns (stdout : string) (timestamp : datetime)
    (answer : option datetime) :
  Command.check (Return stdout) timestamp = Return answer ->
  exists line rest,
    Str.bytes_splitlines stdout = line :: rest
    /\ match answer with
       | None => Str.bytes_strip line = ""
       | Some t =>
           Str.bytes_strip line <> ""
           /\ exists x us,
               float_of_string (Str.bytes_strip line) = Some x
               /\ timestamp_micros x = Return us
               /\ t = utc_instant us
       end.
Proof.
  unfold Command.check, first_item, float, fromtimestamp_utc. unfold_bind.
  destruct (Str.bytes_splitlines stdout) as [|line rest]; [done|].
  cbn [try_except]. intros Hcheck. exists line, rest. split; [done|].
  destruct (Str.bytes_strip line) as [|c s] eqn:Hstrip.
  - cbn in Hcheck. by injection Hcheck as <-.
  - cbn [Str.nonempty] in Hcheck.
    destruct (float_of_string (String c s)) as [x|] eqn:Hx; [|done].
    destruct (timestamp_micros x) as [us|e0] eqn:Hus.
    + cbn in Hcheck. injection Hcheck as <-. split; [done|]. by exists x, us.
    + cbn [try_except dispatch raise_from] in Hcheck.
      destruct (is_CalledProcessError e0) eqn:Hc.
      * destruct e0; try discriminate Hc. by destruct command_not_found.
      * by destruct (is_ValueError e0).
Qed.

End FirstLine.

Lemma File_check_first_line_witness :
  let T := utc_instant 1767225600000000 in
  File.check (N := ExactNumerics) (Return "1700000000") T
  = File.check (N := ExactNumerics)
      (Return ("1700000000" ++ String (ascii_of_nat 10) "not read")%string) T.
Proof.
  intros T.
  apply (@File_check_reads_first_line_only ExactNumerics _ _ "1700000000"
           [] ["not read"]); vm_compute; reflexivity.
Defined.

Lemma File_check_escapes_witness :
  OverflowError = TemporaryCheckError
  \/ (OverflowError = IndexError
      /\ exists text, Return "inf" = Return text /\ Str.str_splitlines text = [])
  \/ (escapes_file_check OverflowError
      /\ (Return "inf" = Raise OverflowError
          \/ exists x, timestamp_micros (PyNumerics := ExactNumerics) x
                       = Raise OverflowError)).
Proof.
  apply (@File_check_escapes ExactNumerics (Return "inf")
           (utc_instant 1767225600000000) OverflowError).
  vm_compute. reflexivity.
Defined.

Lemma Command_check_first_line_witness :
  let T := utc_instant 1767225600000000 in
  Command.check (N := ExactNumerics) (Return "1234") T
  = Command.check (N := ExactNumerics)
      (Return ("1234" ++ String (ascii_of_nat 10) "5678")%string) T.
Proof.
  intros T.
  apply (@Command_check_reads_first_line_only ExactNumerics _ _ "1234"
           [] ["5678"]); vm_compute; reflexivity.
Defined.

Lemma Command_check_returns_witness :
  exists line rest,
    Str.bytes_splitlines " 1234 " = line :: rest
    /\ Str.bytes_strip line <> ""
    /\ exists x us,
        float_of_string (PyNumerics := ExactNumerics) (Str.bytes_strip line) = Some x
        /\ timestamp_micros (PyNumerics := ExactNumerics) x = Return us
        /\ utc_instant 1234000000 = utc_instant us.
Proof.
  apply (@Command_check_returns ExactNumerics " 1234 "
           (utc_instant 1767225600000000) (Some (utc_instant 1234000000))).
  vm_compute. reflexivity.
Defined.

(** ** wakeup.py: XPath, XPathDelta and Periodic *)

Section XPathFurther.
Context {N : PyNumerics}.

(** X18.  [XPath.check], the absolute variant: when each of one or more
    matches converts to an instant, the result is one of those instants and
    no later than any of them. *)
Theorem XPath_check_earliest_timestamp (matches : list xpath_result)
    (instants : list datetime) (timestamp : datetime) :
  matches <> [] ->
  Forall2 (fun m t => XPath.convert_result m timestamp = Return t)
          matches instants ->
  exists earliest,
    XPath.check (Return matches) timestamp = Return (Some earliest)
    /\ earliest ∈ instants
    /\ forall t, t ∈ instants -> wall earliest <= wall t.
Proof.
  intros Hne Hconv.
  destruct (min_of_least (fun m => XPath.convert_result m timestamp)
              (Some utc) matches instants Hne Hconv)
    as (r & Hr & Hin & Hmin).
  { clear Hne. induction Hconv as [|m t ms ts Hm _ IH]; constructor; [|done].
    by apply XPath_convert_result_is_utc in Hm. }
  exists r. split; [|done].
  unfold XPath.check, XPath.check_with. unfold_bind.
  destruct matches as [|m ms]; [done|]. by rewrite Hr.
Qed.

(** X19.  In both XPath checks the first match that does not convert
    decides the outcome, whatever follows it: a [TypeError] or [ValueError]
    of its conversion leaves as [TemporaryCheckError], and any other
    exception leaves as it is. *)
Theorem XPath_check_first_failure (before : list xpath_result)
    (m : xpath_result) (after : list xpath_result) (timestamp : datetime)
    (e : exn) :
  (Forall (fun m' => exists t, XPath.convert_result m' timestamp = Return t)
          before ->
   XPath.convert_result m timestamp = Raise e ->
   XPath.check (Return (before ++ m :: after)%list) timestamp
   = Raise (if is_TypeError e || is_ValueError e
            then TemporaryCheckError else e))
  /\ (forall self,
      Forall (fun m' => exists t,
                  XPathDelta.convert_result self m' timestamp = Return t)
             before ->
      XPathDelta.convert_result self m timestamp = Raise e ->
      XPathDelta.check self (Return (before ++ m :: after)%list) timestamp
      = Raise (if is_TypeError e || is_ValueError e
               then TemporaryCheckError else e)).
Proof.
  assert (Hgen : forall (convert : xpath_result -> datetime -> outcome datetime)
                        (zone : option tzinfo),
             (forall m' t, convert m' timestamp = Return t -> tz t = zone) ->
             Forall (fun m' => exists t, convert m' timestamp = Return t) before ->
             convert m timestamp = Raise e ->
             XPath.check_with convert (Return (before ++ m :: after)%list) timestamp
             = Raise (if is_TypeError e || is_ValueError e
                      then TemporaryCheckError else e)).
  { intros convert zone Hzone Hbefore Hm.
    assert (exists values,
               Forall2 (fun m' t => convert m' timestamp = Return t) before values
               /\ Forall (fun t => tz t = zone) values) as (values & Hconv & Hvalues).
    { clear Hm. induction Hbefore as [|m0 ms [t Ht] _ (ts & IH1 & IH2)].
      - exists []. split; constructor.
      - exists (t :: ts). split; constructor; try done. by apply (Hzone m0). }
    unfold XPath.check_with. unfold_bind.
    rewrite (min_of_first_failure (fun m' => convert m' timestamp) zone
               before values m after e Hconv Hvalues Hm).
    destruct (before ++ m :: after)%list eqn:Hlist;
      [by destruct before|].
    cbn [try_except dispatch raise_from].
    destruct (is_TypeError e); [done|]. by destruct (is_ValueError e). }
  split.
  - apply (Hgen XPath.convert_result (Some utc)).
    intros m' t. apply XPath_convert_result_is_utc.
  - intros self. apply (Hgen (XPathDelta.convert_result self) (tz timestamp)).
    intros m' t. apply XPathDelta_convert_result_tz.
Qed.

(** X20.  A check that [XPathDelta.create] built has a unit of [UNITS],
    and every unit of [UNITS] is a keyword of [timedelta]: for such a check
    the duration of an offset never fails on the unit. *)
Theorem XPathDelta_create_unit_is_keyword (config : gmap string string)
    (collected : outcome unit) (self : XPathDelta.t) :
  XPathDelta.create config collected = Return self ->
  XPathDelta._unit self ∈ XPathDelta.UNITS
  /\ exists k, assoc (XPathDelta._unit self) timedelta_keywords = Some k
               /\ forall x, timedelta_kw (XPathDelta._unit self) x
                            = timedelta_micros k x.
Proof.
  unfold XPathDelta.create, XPathDelta.__init__. unfold_bind.
  destruct collected as [[]|e0].
  - destruct (Str.str_in _ XPathDelta.UNITS) eqn:Hin; [|done].
    cbn. intros [= <-]. cbn [XPathDelta._unit].
    apply str_in_elem_of in Hin. split; [done|].
    assert (Hk : exists k, assoc (LogindSessionsIdle.config_get config "unit" "minutes")
                                 timedelta_keywords = Some k).
    { unfold XPathDelta.UNITS in Hin.
      repeat (apply elem_of_cons in Hin as [-> | Hin]); try (by eexists).
      by apply elem_of_nil in Hin. }
    destruct Hk as [k Hk]. exists k. split; [done|].
    intros x. unfold timedelta_kw. by rewrite Hk.
  - cbn. by destruct (is_ValueError e0).
Qed.


End XPathFurther.

Lemma XPath_check_earliest_witness :
  exists earliest,
    XPath.check (N := ExactNumerics)
      (Return [XText "1700000000"; XText "1600000000"])
      (utc_instant 1767225600000000) = Return (Some earliest)
    /\ earliest ∈ [utc_instant 1700000000000000; utc_instant 1600000000000000]
    /\ forall t, t ∈ [utc_instant 1700000000000000; utc_instant 1600000000000000] ->
                 wall earliest <= wall t.
Proof.
  apply (@XPath_check_earliest_timestamp ExactNumerics); [done|].
  constructor; [vm_compute; reflexivity|].
  constructor; [vm_compute; reflexivity | constructor].
Defined.

Lemma XPath_check_first_failure_witness :
  let T := utc_instant 1767225600000000 in
  XPath.check (N := ExactNumerics)
    (Return [XText "1700000000"; XNode; XText "1600000000"]) T
  = Raise TemporaryCheckError
  /\ XPathDelta.check (N := ExactNumerics) {| XPathDelta._unit := "minutes" |}
       (Return [XText "10"; XText "inf"; XText "x"]) T
     = Raise OverflowError.
Proof.
  intros T. split.
  - apply (proj1 (@XPath_check_first_failure ExactNumerics
             [XText "1700000000"] XNode [XText "1600000000"] T TypeError)).
    + constructor; [|constructor]. eexists. vm_compute. reflexivity.
    + reflexivity.
  - apply (proj2 (@XPath_check_first_failure ExactNumerics
             [XText "10"] (XText "inf") [XText "x"] T OverflowError)
             {| XPathDelta._unit := "minutes" |}).
    + constructor; [|constructor]. eexists. vm_compute. reflexivity.
    + vm_compute. reflexivity.
Defined.

Lemma XPathDelta_create_unit_witness :
  "hours" ∈ XPathDelta.UNITS
  /\ exists k, assoc "hours" timedelta_keywords = Some k
               /\ forall x, timedelta_kw (N := ExactNumerics) "hours" x
                            = timedelta_micros (PyNumerics := ExactNumerics) k x.
Proof.
  apply (@XPathDelta_create_unit_is_keyword ExactNumerics
           (<["unit" := "hours"]> ∅) (Return tt) {| XPathDelta._unit := "hours" |}).
  reflexivity.
Defined.

